(** * FakeNilc [classify.py]: a shallow embedding and its verified properties

    The script evaluates classifiers by 5-fold cross-validated prediction on
    growing prefixes of a shuffled data set and prints a report.  The
    embedding follows the script function by function ([parseArguments],
    [getDatasetValues], [predictAndEvaluate], [printResults], [main]); the
    library calls it makes (numpy, pandas, scikit-learn) are modelled next
    to it, each as the library documents it.

    Conventions:
    - Python exceptions are values of [exn]; a computation that may raise
      returns a [result];
    - printing, the global random generator and the calls to the
      cross-validation routine are effects on a [world], threaded by the
      monad [M]; what was printed before an exception stays in the sink;
      the shuffle and the training of the estimators draw from the
      generator;
    - float64 arithmetic is the IEEE-754 binary64 of [SpecFloat]. *)

From Stdlib Require Import String Ascii DecimalString.
From Stdlib Require Import ZArith List Bool Lia Permutation.
From Stdlib Require Import Floats.SpecFloat.
Import ListNotations.

Set Implicit Arguments.

#[local] Open Scope string_scope.
#[local] Open Scope nat_scope.
#[local] Open Scope list_scope.

(** ** The Python runtime *)

Module Py.

(** The reasons for which the modelled library calls raise [ValueError]. *)
Inductive value_error : Type :=
| NegativeSamples                       (* numpy.linspace, num < 0 *)
| InconsistentSamples                   (* arrays of different lengths *)
| NoSample                              (* check_array: an array of 0 samples *)
| EmptySequence                         (* max() of an empty sequence *)
| SplitsGtSamples (n_splits n : nat)    (* KFold: more folds than samples *)
| SplitsGtMembers (n_splits : nat)      (* StratifiedKFold: every class too small *)
| NotAPartition                         (* cross_val_predict: folds do not cover *)
| EstimatorFailure (msg : string)       (* raised by fit of the estimator *)
| Unpack (expected got : nat).          (* tuple unpacking of the wrong size *)

Inductive exn : Type :=
| KeyError (key : string)
| IndexError
| AttributeError (attr : string)
| ValueError (why : value_error)
| SystemExit (code : Z).

Inductive result (A : Type) : Type :=
| Ok (a : A)
| Raise (e : exn).
Arguments Ok {A} a.
Arguments Raise {A} e.

(** The state of the global [numpy.random] generator, seen from its
    callers: [raw k] is the number handed to the draw of rank [k], and
    [consumed] the rank of the next draw.  (A draw of numpy masks as many
    32-bit outputs of the generator as it takes to find one in range;
    [raw] holds the number found, and how many outputs were used is not
    represented.) *)
Record random_state : Type := { raw : nat -> nat; consumed : nat }.

(** What the process acts on: the text written to the output file (one
    entry per write), the slices handed to cross-validation so far, and
    the random generator. *)
Record world : Type :=
  { sink : list string; cv_log : list nat; rng : random_state }.

Definition M (A : Type) : Type := world -> result A * world.

Definition ret {A} (a : A) : M A := fun w => (Ok a, w).
Definition raise {A} (e : exn) : M A := fun w => (Raise e, w).
Definition bind {A B} (c : M A) (k : A -> M B) : M B :=
  fun w => match c w with
           | (Ok a, w') => k a w'
           | (Raise e, w') => (Raise e, w')
           end.
Definition lift {A} (r : result A) : M A := fun w => (r, w).

Definition rbind {A B} (r : result A) (k : A -> result B) : result B :=
  match r with Ok a => k a | Raise e => Raise e end.

(** [for x in l: body x], for its effects. *)
Fixpoint for_each {A} (l : list A) (body : A -> M unit) : M unit :=
  match l with
  | [] => ret tt
  | x :: l' => bind (body x) (fun _ => for_each l' body)
  end.

(** [for x in l: acc.append(body x)]. *)
Fixpoint for_append {A B} (l : list A) (body : A -> M B) : M (list B) :=
  match l with
  | [] => ret []
  | x :: l' =>
      bind (body x) (fun b => bind (for_append l' body) (fun bs => ret (b :: bs)))
  end.

(** The same loop on pure fallible bodies. *)
Fixpoint rmap {A B} (f : A -> result B) (l : list A) : result (list B) :=
  match l with
  | [] => Ok []
  | x :: l' => rbind (f x) (fun b => rbind (rmap f l') (fun bs => Ok (b :: bs)))
  end.

Definition nl : string := String "010"%char EmptyString.

(** [sep.join(l)]. *)
Definition join (sep : string) (l : list string) : string := String.concat sep l.

(** The world after [lines] were written to the output file. *)
Definition emit (w : world) (lines : list string) : world :=
  {| sink := sink w ++ lines; cv_log := cv_log w; rng := rng w |}.

(** [print(a, b, ..., file=f)]: the arguments separated by one space and
    ended by a newline, written to the sink. *)
Definition print (args : list string) : M unit :=
  fun w => (Ok tt, emit w [(join " " args ++ nl)%string]).

(** [l[i]] for [0 <= i]. *)
Definition getitem {A} (l : list A) (i : nat) : result A :=
  match nth_error l i with Some a => Ok a | None => Raise IndexError end.

(** [l[-1]]. *)
Definition getlast {A} (l : list A) : result A :=
  match l with [] => Raise IndexError | _ => getitem l (length l - 1) end.

(** [l[:n]] for a Python or numpy integer [n]: a negative [n] counts from
    the end. *)
Definition take {A} (n : Z) (l : list A) : list A :=
  if (0 <=? n)%Z then firstn (Z.to_nat n) l
  else firstn (length l - Z.to_nat (- n)) l.

(** [str(n)] and [format(n, '5d')] for a non-negative integer. *)
Definition str_nat (n : nat) : string := NilEmpty.string_of_uint (Nat.to_uint n).

Fixpoint spaces (n : nat) : string :=
  match n with O => EmptyString | S n' => String " "%char (spaces n') end.

Definition format_5d (n : nat) : string :=
  let s := str_nat n in (spaces (5 - String.length s) ++ s)%string.

End Py.

Export Py.

Declare Scope py_scope.
Delimit Scope py_scope with py.
Notation "x <- c ;; k" := (bind c (fun x => k))
  (at level 100, c at next level, right associativity) : py_scope.
Notation "c ;;; k" := (bind c (fun _ => k))
  (at level 100, right associativity) : py_scope.

(** ** numpy: float64 arrays, [linspace], [astype(int)] *)

Module Numpy.

Definition prec : Z := 53.
Definition emax : Z := 1024.

Definition float64 : Type := spec_float.

Definition fmul : float64 -> float64 -> float64 := SFmul prec emax.
Definition fdiv : float64 -> float64 -> float64 := SFdiv prec emax.
Definition fadd : float64 -> float64 -> float64 := SFadd prec emax.
Definition fsub : float64 -> float64 -> float64 := SFsub prec emax.
Definition feqb : float64 -> float64 -> bool := SFeqb.

(** Conversion of an integer to float64, rounding to nearest even. *)
Definition of_int (n : Z) : float64 := binary_normalize prec emax n 0 false.

Definition fzero : float64 := of_int 0.
Definition fone : float64 := of_int 1.

(** [x.astype(int)] on one element: the C conversion, which truncates
    toward zero; NaN and the infinities give the smallest int64. *)
Definition to_int (x : float64) : Z :=
  match x with
  | S754_zero _ => 0
  | S754_finite s m e =>
      let a := match e with
               | Z0 => Zpos m
               | Zpos _ => Zpos m * 2 ^ e
               | Zneg k => Zpos m / 2 ^ Zpos k
               end in
      if s then - a else a
  | S754_infinity _ | S754_nan => - 2 ^ 63
  end%Z.

Definition astype_int (a : list float64) : list Z := map to_int a.

(** [numpy.arange(0, n)] as floats. *)
Definition arange (n : nat) : list float64 :=
  map (fun i => of_int (Z.of_nat i)) (seq 0 n).

(** [a * k] for an array and a scalar. *)
Definition scale (a : list float64) (k : float64) : list float64 :=
  map (fun v => fmul v k) a.

(** [y[-1] = v] on a non-empty array. *)
Definition set_last (y : list float64) (v : float64) : list float64 :=
  removelast y ++ [v].

(** [numpy.linspace(start, stop, num)] with [endpoint=True]:
    [arange(0, num) * step + start] with [step = (stop - start) / (num - 1)],
    the last point then overwritten by [stop]. *)
Definition linspace (start stop : float64) (num : Z) : result (list float64) :=
  if (num <? 0)%Z then Raise (ValueError NegativeSamples)
  else
    let div := (num - 1)%Z in
    let y := arange (Z.to_nat num) in
    let delta := fsub stop start in
    let y :=
      if (1 <? num)%Z then
        let step := fdiv delta (of_int div) in
        if feqb step fzero
        then scale (map (fun v => fdiv v (of_int div)) y) delta
        else scale y step
      else scale y delta in
    let y := map (fun v => fadd v start) y in
    Ok (if (1 <? num)%Z then set_last y stop else y).

End Numpy.

Export Numpy.

(** ** pandas: the part of [DataFrame] the script uses *)

Module Pandas.

Section Frame.

Variable cell : Type.

(** A frame stores its row labels and, per column, the label of the
    column and its cells. *)
Record DataFrame : Type :=
  { index : list string; columns : list (string * list cell) }.

Definition n_rows (df : DataFrame) : nat := length (index df).

(** Every column has one cell per row label. *)
Definition well_formed (df : DataFrame) : Prop :=
  Forall (fun c => length (snd c) = n_rows df) (columns df).

Definition labelled (key : string) (c : string * list cell) : bool :=
  String.eqb (fst c) key.

(** [df.loc[:, key].tolist()]: [KeyError] when no column has the label;
    when several have it [loc] gives a frame, which has no [tolist]. *)
Definition loc_tolist (df : DataFrame) (key : string) : result (list cell) :=
  match filter (labelled key) (columns df) with
  | [] => Raise (KeyError key)
  | [c] => Ok (snd c)
  | _ :: _ :: _ => Raise (AttributeError "tolist")
  end.

(** [df.drop(key, axis=1)]. *)
Definition drop (df : DataFrame) (key : string) : result DataFrame :=
  if existsb (labelled key) (columns df)
  then Ok {| index := index df;
             columns := filter (fun c => negb (labelled key c)) (columns df) |}
  else Raise (KeyError key).

Definition heads (cols : list (list cell)) : list cell :=
  flat_map (fun c => match c with [] => [] | x :: _ => [x] end) cols.

Fixpoint rows_of (n : nat) (cols : list (list cell)) : list (list cell) :=
  match n with
  | O => []
  | S n' => heads cols :: rows_of n' (map (@tl cell) cols)
  end.

(** [df.values]: the cells row by row. *)
Definition values (df : DataFrame) : list (list cell) :=
  rows_of (n_rows df) (map snd (columns df)).

End Frame.

End Pandas.

Export Pandas.

(** ** scikit-learn: shuffling, metrics and cross-validated prediction *)

Module Sklearn.

(** A sample is a row of cells; labels are strings. *)
Definition row : Type := list string.
Definition label : Type := string.

(** The classifier classes the script imports and instantiates. *)
Inductive classifier : Type :=
| LinearSVC
| MultinomialNB
| RandomForestClassifier
| MLPClassifier.

(** [clf.__class__.__name__]. *)
Definition class_name (c : classifier) : string :=
  match c with
  | LinearSVC => "LinearSVC"
  | MultinomialNB => "MultinomialNB"
  | RandomForestClassifier => "RandomForestClassifier"
  | MLPClassifier => "MLPClassifier"
  end.

(** The outcome of training: a model, given by its prediction, or the
    message of the exception the estimator raised. *)
Inductive fitted : Type :=
| Fitted (predict : row -> label)
| FitError (msg : string).

(** What the embedding leaves to the libraries: training, the allocation
    of the samples to the test folds of [StratifiedKFold], the text of
    [classification_report] and the [repr] of a float.  The script builds
    its estimators with no [random_state], so that training takes the
    global generator and leaves it changed: the same data may give another
    model the next time. *)
Class Library : Type :=
  { fit : classifier -> list row -> list label -> random_state
          -> fitted * random_state;
    make_test_folds : list label -> nat -> list nat;
    report_text : list label -> list label -> string;
    repr_float : float64 -> string }.

(** *** [sklearn.utils.shuffle] *)

(** A number in [0, max], drawn from the generator: the number handed to
    this draw, which is in range already when the stream is that of numpy
    and is brought into range otherwise. *)
Definition rk_interval (max : nat) (g : random_state) : nat * random_state :=
  (raw g (consumed g) mod S max, {| raw := raw g; consumed := S (consumed g) |}).

Fixpoint set_nth {A} (i : nat) (v : A) (l : list A) : list A :=
  match l, i with
  | [], _ => []
  | _ :: l', O => v :: l'
  | x :: l', S i' => x :: set_nth i' v l'
  end.

(** [x[i], x[j] = x[j], x[i]]. *)
Definition swap {A} (x : list A) (i j : nat) : list A :=
  match nth_error x i, nth_error x j with
  | Some a, Some b => set_nth i b (set_nth j a x)
  | _, _ => x
  end.

(** [RandomState.shuffle]: for [i] from the last position down to 1, the
    element at [i] is exchanged with the one at a random [j <= i]. *)
Fixpoint fisher_yates {A} (i : nat) (x : list A) (g : random_state)
  : list A * random_state :=
  match i with
  | O => (x, g)
  | S i' => let (j, g') := rk_interval i g in fisher_yates i' (swap x i j) g'
  end.

Definition shuffled_indices (n : nat) (g : random_state) : list nat * random_state :=
  fisher_yates (n - 1) (seq 0 n) g.

(** [a[indices]]. *)
Definition safe_indexing {A} (a : list A) (indices : list nat) : result (list A) :=
  rmap (getitem a) indices.

(** [shuffle(X, y, Id)]: the three arrays must have one length; one
    permutation of the positions is drawn and indexes all three. *)
Definition shuffle {A B C} (X : list A) (y : list B) (Id : list C)
  : M (list A * list B * list C) :=
  fun w =>
    if negb ((length X =? length y) && (length X =? length Id))
    then (Raise (ValueError InconsistentSamples), w)
    else
      let (indices, g) := shuffled_indices (length X) (rng w) in
      let w' := {| sink := sink w; cv_log := cv_log w; rng := g |} in
      (rbind (safe_indexing X indices) (fun X' =>
       rbind (safe_indexing y indices) (fun y' =>
       rbind (safe_indexing Id indices) (fun Id' => Ok (X', y', Id')))), w').

(** *** Metrics *)

Definition count_if {A} (f : A -> bool) (l : list A) : nat := length (filter f l).

(** [accuracy_score]: the fraction of positions at which the two agree, as
    a float64. *)
Definition accuracy (y_true y_pred : list label) : float64 :=
  fdiv (of_int (Z.of_nat (count_if (fun tp => String.eqb (fst tp) (snd tp))
                                   (combine y_true y_pred))))
       (of_int (Z.of_nat (length y_true))).

Definition accuracy_score (y_true y_pred : list label) : result float64 :=
  if length y_true =? length y_pred
  then Ok (accuracy y_true y_pred)
  else Raise (ValueError InconsistentSamples).

Fixpoint insert_label (s : label) (l : list label) : list label :=
  match l with
  | [] => [s]
  | x :: l' =>
      match String.compare s x with
      | Lt => s :: l
      | Eq => l
      | Gt => x :: insert_label s l'
      end
  end.

(** [unique_labels(y_true, y_pred)]: the labels that occur, sorted. *)
Definition unique_labels (y_true y_pred : list label) : list label :=
  fold_right insert_label [] (y_true ++ y_pred).

(** The number of samples of true class [a] predicted as [b]. *)
Definition count_pairs (a b : label) (y_true y_pred : list label) : nat :=
  count_if (fun tp => String.eqb (fst tp) a && String.eqb (snd tp) b)
           (combine y_true y_pred).

(** [confusion_matrix]: entry (i, j) counts the samples of the i-th label
    predicted as the j-th. *)
Definition confusion_matrix (y_true y_pred : list label) : result (list (list nat)) :=
  if length y_true =? length y_pred
  then let labels := unique_labels y_true y_pred in
       Ok (map (fun a => map (fun b => count_pairs a b y_true y_pred) labels) labels)
  else Raise (ValueError InconsistentSamples).

(** [m.ravel()], row by row. *)
Definition ravel (m : list (list nat)) : list nat := concat m.

(** [classification_report]: the arrays must have one length; the width
    of the first column is the [max] of the widths of the labels, which
    fails when there is no label. *)
Definition classification_report `{Library} (y_true y_pred : list label)
  : result string :=
  if length y_true =? length y_pred
  then match unique_labels y_true y_pred with
       | [] => Raise (ValueError EmptySequence)
       | _ :: _ => Ok (report_text y_true y_pred)
       end
  else Raise (ValueError InconsistentSamples).

(** *** [cross_val_predict] *)

(** The part of [a] outside test fold [k], on which the model of the fold
    is trained. *)
Definition train_part {A} (folds : list nat) (k : nat) (a : list A) : list A :=
  map fst (filter (fun xf => negb (snd xf =? k)) (combine a folds)).

(** The record that a slice of [n] samples was handed to cross-validation. *)
Definition log_cv (n : nat) : M unit :=
  fun w => (Ok tt, {| sink := sink w; cv_log := cv_log w ++ [n]; rng := rng w |}).

(** The model of fold [k], trained on the samples outside the fold. *)
Definition fit_fold `{Library} (clf : classifier) (X : list row) (y : list label)
    (folds : list nat) (k : nat) : M (row -> label) :=
  fun w =>
    let (model, g) := fit clf (train_part folds k X) (train_part folds k y) (rng w) in
    let w' := {| sink := sink w; cv_log := cv_log w; rng := g |} in
    match model with
    | Fitted predict => (Ok predict, w')
    | FitError msg => (Raise (ValueError (EstimatorFailure msg)), w')
    end.

(** The prediction of the sample [xk], by the model of its own fold. *)
Definition predict_sample (models : list (row -> label)) (xk : row * nat)
  : result label :=
  rbind (getitem models (snd xk)) (fun m => Ok (m (fst xk))).

(** The folds once the split is accepted: one model is trained per fold
    on the samples outside it, and every sample is predicted by the model
    of its own fold. *)
Definition predict_folds `{Library} (clf : classifier) (X : list row)
    (y : list label) (cv : nat) : M (list label) :=
  let folds := make_test_folds y cv in
  if negb ((length folds =? length X) && forallb (fun k => k <? cv) folds)
  then raise (ValueError NotAPartition)
  else
    (models <- for_append (seq 0 cv) (fit_fold clf X y folds) ;;
     lift (rmap (predict_sample models) (combine X folds)))%py.

(** No class of [y] has [cv] members. *)
Definition every_class_below (cv : nat) (y : list label) : bool :=
  forallb (fun c => count_if (String.eqb c) y <? cv) (unique_labels y []).

(** The stratified split and what follows it. *)
Definition stratified_predict `{Library} (clf : classifier) (X : list row)
    (y : list label) (cv : nat) : M (list label) :=
  if every_class_below cv y then raise (ValueError (SplitsGtMembers cv))
  else predict_folds clf X y cv.

(** [cross_val_predict(clf, X, y, cv=cv)] for a classifier and an integer
    [cv]: the arrays must have one length; [StratifiedKFold(cv)] refuses
    labels with no sample, then more folds than samples, then more folds
    than the members of every class.  ([n_jobs] and [verbose], which the
    script passes on, choose where the folds are trained and what is
    traced on the error stream; the script never passes 0 jobs.) *)
Definition cross_val_predict `{Library} (clf : classifier) (X : list row)
    (y : list label) (cv : nat) : M (list label) :=
  (log_cv (length X) ;;;
   if negb (length X =? length y) then raise (ValueError InconsistentSamples)
   else if length y =? 0 then raise (ValueError NoSample)
   else if length X <? cv then raise (ValueError (SplitsGtSamples cv (length X)))
   else stratified_predict clf X y cv)%py.

End Sklearn.

Export Sklearn.

(** ** The script *)

Module Classify.

(** *** [prepareArgParser], [parseArguments] *)

(** What the parser is configured with: the values [-c] accepts and the
    defaults of [--n_jobs] and [-lc]. *)
Record arg_parser : Type :=
  { choices : list string;
    default_n_jobs : Z;
    default_learning_curve_steps : Z }.

Definition prepareArgParser : arg_parser :=
  {| choices := ["svc"; "linearsvc"; "naive_bayes"; "randomforest"; "all"; "mlp"];
     default_n_jobs := 2;
     default_learning_curve_steps := 1 |}.

(** The command line: the positional file names and the values of the
    options given, for a command line whose numbers read as integers and
    whose output file, if any, could be opened, and that does not ask for
    the help text: these end the process inside [parse_args] before any
    value is returned, and are not represented. *)
Record argv : Type :=
  { argv_files : list string;
    argv_n_jobs : option Z;
    argv_verbose : bool;
    argv_debug : bool;
    argv_lc : option Z;
    argv_classifier : option string }.

(** The namespace [parse_args] returns. *)
Record namespace : Type :=
  { dataset_filenames : list string;
    n_jobs : Z;
    verbose : bool;
    debug : bool;
    learning_curve_steps : Z;
    classifier_arg : option string }.

Definition or_default {A} (o : option A) (d : A) : A :=
  match o with Some a => a | None => d end.

(** [arg_parser.parse_args()]: at least one file name is required
    ([nargs='+']) and a [-c] value must be one of the choices; otherwise
    argparse exits with status 2. *)
Definition parse_args (p : arg_parser) (a : argv) : result namespace :=
  let accepted :=
    match argv_classifier a with
    | Some name => existsb (String.eqb name) (choices p)
    | None => true
    end in
  match argv_files a with
  | [] => Raise (SystemExit 2)
  | _ :: _ =>
      if accepted then
        Ok {| dataset_filenames := argv_files a;
              n_jobs := or_default (argv_n_jobs a) (default_n_jobs p);
              verbose := argv_verbose a;
              debug := argv_debug a;
              learning_curve_steps :=
                or_default (argv_lc a) (default_learning_curve_steps p);
              classifier_arg := argv_classifier a |}
      else Raise (SystemExit 2)
  end.

Record flags : Type :=
  { flag_v : bool; flag_d : bool; flag_n_jobs : Z; flag_lc : Z }.

(** [args.classifier == name]. *)
Definition is_choice (c : option string) (name : string) : bool :=
  match c with Some s => String.eqb s name | None => false end.

(** The classifiers used, by [args.classifier]. *)
Definition select_classifiers (c : option string) : list classifier :=
  let classifier := [LinearSVC; MultinomialNB; RandomForestClassifier] in
  if is_choice c "linearsvc" then [nth 0 classifier LinearSVC]
  else if is_choice c "naive_bayes" then [nth 1 classifier LinearSVC]
  else if is_choice c "randomforest" then [nth 2 classifier LinearSVC]
  else if is_choice c "mlp" then [MLPClassifier]
  else classifier.

Definition parseArguments (a : argv)
  : result (list string * flags * list classifier) :=
  rbind (parse_args prepareArgParser a) (fun args =>
  Ok (dataset_filenames args,
      {| flag_v := verbose args || debug args;
         flag_d := debug args;
         flag_n_jobs := if (n_jobs args =? 0)%Z then 2%Z else n_jobs args;
         flag_lc := learning_curve_steps args |},
      select_classifiers (classifier_arg args))).

(** *** [getDatasetValues] *)

Definition getDatasetValues {cell} (df : DataFrame cell)
  : M (list (list cell) * list cell * list string) :=
  (y <- lift (loc_tolist df "Tag") ;;
   df <- lift (drop df "Tag") ;;
   let X := values df in
   let Id := index df in
   shuffle X y Id)%py.

(** *** [predictAndEvaluate] *)

(** The slice lengths in the words of the specification, to be compared
    with [slice_sizes]: the ceilings of [i * n / lc] for [i = 1..lc]. *)
Definition spec_slice_sizes (lc : Z) (n : nat) : list Z :=
  map (fun i => (Z.of_nat i * Z.of_nat n + lc - 1) / lc)%Z (seq 1 (Z.to_nat lc)).

(** The sizes of the slices: [(linspace(0, 1, lc+1) * n).astype(int)[1:]]. *)
Definition slice_sizes (lc : Z) (n : nat) : result (list Z) :=
  rbind (linspace fzero fone (lc + 1)) (fun p =>
  Ok (tl (astype_int (scale p (of_int (Z.of_nat n)))))).

(** The point of index [i] of [linspace(0, 1, lc+1)], before the last one. *)
Definition grid_point (lc : Z) (i : nat) : float64 :=
  let delta := fsub fone fzero in
  let step := fdiv delta (of_int lc) in
  fadd (if feqb step fzero
        then fmul (fdiv (of_int (Z.of_nat i)) (of_int lc)) delta
        else fmul (of_int (Z.of_nat i)) step) fzero.

Definition predictAndEvaluate `{Library} (clf : classifier) (X : list row)
    (y : list label) (lc : Z) : M (list (list label)) :=
  (s <- lift (slice_sizes lc (length y)) ;;
   for_append s (fun val => cross_val_predict clf (take val X) (take val y) 5))%py.

(** *** [printResults] *)

(** [tn, fp, fn, tp = v]. *)
Definition unpack4 (v : list nat) : result (nat * nat * nat * nat) :=
  match v with
  | [tn; fp; fn; tp] => Ok (tn, fp, fn, tp)
  | _ => Raise (ValueError (Unpack 4 (length v)))
  end.

Definition repr_list `{Library} (scores : list float64) : string :=
  ("[" ++ join ", " (map repr_float scores) ++ "]")%string.

(** The dataset sizes of the learning curve:
    [(linspace(0, 1, k+1)[1:] * n).astype(int)]. *)
Definition curve_sizes (k n : nat) : result (list Z) :=
  rbind (linspace fzero fone (Z.of_nat k + 1)) (fun p =>
  Ok (astype_int (scale (tl p) (of_int (Z.of_nat n))))).

Definition learning_curve (real : list label) (predicts : list (list label))
  : result (list float64) :=
  rbind (curve_sizes (length predicts) (length real)) (fun s =>
  rmap (fun i => rbind (getitem s i) (fun si =>
                 rbind (getitem predicts i) (fun p =>
                 accuracy_score (take si real) p)))
       (seq 0 (length predicts))).

Definition printResults `{Library} (classifier : string) (real : list label)
    (predicts : list (list label)) : M unit :=
  (print ["Classifier:"; classifier] ;;;
   last <- lift (getlast predicts) ;;
   report <- lift (classification_report real last) ;;
   print [report] ;;;
   last <- lift (getlast predicts) ;;
   cm <- lift (confusion_matrix real last) ;;
   counts <- lift (unpack4 (ravel cm)) ;;
   let '(tn, fp, fn, tp) := counts in
   print ["Confusion Matrix:"] ;;;
   print [" a      b     <--- Classified as"] ;;;
   print [(format_5d tp ++ "  " ++ format_5d fp ++ "   a = REAL")%string] ;;;
   print [(format_5d fn ++ "  " ++ format_5d tn ++ "   b = FAKE" ++ nl)%string] ;;;
   print [] ;;;
   if 1 <? length predicts then
     scores <- lift (learning_curve real predicts) ;;
     print ["Learning curve:"] ;;;
     print [repr_list scores]
   else ret tt)%py.

(** *** [main] *)

(** The list comprehension that collects the misclassified records. *)
Definition missed_at (Ids : list string) (y : list label)
    (predicts : list (list label)) (i : nat) : result (list string) :=
  rbind (getlast predicts) (fun last =>
  rbind (getitem last i) (fun p =>
  rbind (getitem y i) (fun t =>
  if negb (String.eqb p t)
  then rbind (getitem Ids i) (fun id =>
       rbind (getlast predicts) (fun last =>
       rbind (getitem last i) (fun p =>
       Ok [(id ++ " Classified as " ++ p ++ nl)%string])))
  else Ok []))).

Definition missed_records (Ids : list string) (y : list label)
    (predicts : list (list label)) : result (list string) :=
  rbind (rmap (missed_at Ids y predicts) (seq 0 (length y))) (fun ms =>
  Ok (concat ms)).

(** The loop over the classifiers; it leaves in [predicts] the result of
    the last one. *)
Fixpoint evaluate_all `{Library} (classifiers : list classifier) (X : list row)
    (y : list label) (fl : flags) (predicts : list (list label))
  : M (list (list label)) :=
  match classifiers with
  | [] => ret predicts
  | clf :: rest =>
      (predicts <- predictAndEvaluate clf X y (flag_lc fl) ;;
       printResults (class_name clf) y predicts ;;;
       evaluate_all rest X y fl predicts)%py
  end.

(** The body of the loop over the dataset files; [read_csv] gives the
    frame stored under a file name. *)
Definition run_dataset `{Library} (read_csv : string -> result (DataFrame string))
    (fl : flags) (classifiers : list classifier) (dataset_filename : string)
  : M unit :=
  (print ["Dataset:"; dataset_filename] ;;;
   df <- lift (read_csv dataset_filename) ;;
   Xyi <- getDatasetValues df ;;
   let '(X, y, Ids) := Xyi in
   predicts <- evaluate_all classifiers X y fl [] ;;
   print ["=============="] ;;;
   missed <- lift (missed_records Ids y predicts) ;;
   print missed)%py.

Definition main `{Library} (read_csv : string -> result (DataFrame string))
    (a : argv) : M unit :=
  (parsed <- lift (parseArguments a) ;;
   let '(dataset_filenames, fl, classifiers) := parsed in
   for_each dataset_filenames (run_dataset read_csv fl classifiers))%py.

End Classify.

Export Classify.

(** ** Vocabulary of the statements *)

Module Statements.

(** The five writes that show the confusion matrix. *)
Definition matrix_lines (tn fp fn tp : nat) : list string :=
  [("Confusion Matrix:" ++ nl)%string;
   (" a      b     <--- Classified as" ++ nl)%string;
   (format_5d tp ++ "  " ++ format_5d fp ++ "   a = REAL" ++ nl)%string;
   (format_5d fn ++ "  " ++ format_5d tn ++ "   b = FAKE" ++ nl ++ nl)%string;
   nl].

(** [confusion_matrix(real, last).ravel()] unpacked. *)
Definition counts_of (real last : list label) : result (nat * nat * nat * nat) :=
  rbind (confusion_matrix real last) (fun cm => unpack4 (ravel cm)).

(** Neighbours are in strictly increasing order. *)
Fixpoint ascending (l : list label) : Prop :=
  match l with
  | x :: (y :: _) as l' => String.compare x y = Lt /\ ascending l'
  | _ => True
  end.

(** A record (id, true label, predicted label) that was misclassified. *)
Definition mispredicted (r : string * (label * label)) : bool :=
  negb (String.eqb (snd (snd r)) (fst (snd r))).

Definition missed_entry (r : string * (label * label)) : string :=
  (fst r ++ " Classified as " ++ snd (snd r) ++ nl)%string.

(** The entries of the misclassified records of a dataset, in order. *)
Definition missed_list (Ids : list string) (y final : list label) : list string :=
  map missed_entry (filter mispredicted (combine Ids (combine y final))).

(** The comprehension of [main] on an explicit final sequence. *)
Definition missed_body (Ids : list string) (y final : list label) (i : nat)
  : result (list string) :=
  rbind (getitem final i) (fun p =>
  rbind (getitem y i) (fun t =>
  if negb (String.eqb p t)
  then rbind (getitem Ids i) (fun id =>
       Ok [(id ++ " Classified as " ++ p ++ nl)%string])
  else Ok [])).

(** The errors by which the split refuses a slice for its number of
    records: no record at all, or fewer records than folds. *)
Definition insufficient_data (e : exn) : bool :=
  match e with
  | ValueError NoSample => true
  | ValueError (SplitsGtSamples _ _) => true
  | _ => false
  end.

(** The rounding state of a mantissa from which nothing was shifted out. *)
Definition exact (m : Z) : shr_record :=
  {| shr_m := m; shr_r := false; shr_s := false |}.

End Statements.

Export Statements.

(** ** A small instance, on which the statements are exercised *)

Module Sample.

(** A library whose models repeat the first cell of a row, each training
    taking one number from the generator, with the folds dealt
    round-robin. *)
Definition library : Library :=
  {| fit := fun _ _ _ g =>
              (Fitted (fun r => hd "REAL" r),
               {| raw := raw g; consumed := S (consumed g) |});
     make_test_folds := fun y k => map (fun i => i mod k) (seq 0 (length y));
     report_text := fun _ _ => "report";
     repr_float := fun _ => "score" |}.

Definition world0 : world :=
  {| sink := []; cv_log := []; rng := {| raw := fun _ => 0; consumed := 0 |} |}.

Definition real6 : list label := ["REAL"; "REAL"; "REAL"; "REAL"; "REAL"; "FAKE"].
Definition guess6 : list label := ["REAL"; "REAL"; "REAL"; "REAL"; "FAKE"; "FAKE"].

(** Six records, five of one class; the feature is a guess of the label. *)
Definition frame : DataFrame string :=
  {| index := ["n1"; "n2"; "n3"; "n4"; "n5"; "n6"];
     columns := [("guess", guess6); ("Tag", real6)] |}.

(** The same without the label column. *)
Definition frame_without_tag : DataFrame string :=
  {| index := ["n1"; "n2"; "n3"; "n4"; "n5"; "n6"];
     columns := [("guess", guess6)] |}.

Definition flags1 : flags :=
  {| flag_v := false; flag_d := false; flag_n_jobs := 2; flag_lc := 1 |}.

(** The six records with a feature that misses the labels of n2 and n5. *)
Definition frame_two_misses : DataFrame string :=
  {| index := ["n1"; "n2"; "n3"; "n4"; "n5"; "n6"];
     columns := [("guess", ["REAL"; "FAKE"; "REAL"; "REAL"; "FAKE"; "FAKE"]);
                 ("Tag", real6)] |}.

(** Eight labels, four of each class. *)
Definition real8 : list label :=
  ["REAL"; "REAL"; "REAL"; "REAL"; "FAKE"; "FAKE"; "FAKE"; "FAKE"].

End Sample.

(** * Facts *)

(** ** float64 *)

Lemma iter_pos_nat {A} (f : A -> A) (n : positive) (x : A) :
  iter_pos f n x = Nat.iter (Pos.to_nat n) f x.
Proof.
  revert x; induction n as [n IH | n IH | ]; intro x; cbn [iter_pos].
  - rewrite !IH, Pos2Nat.inj_xI.
    replace (S (2 * Pos.to_nat n)) with (Pos.to_nat n + (Pos.to_nat n + 1)) by lia.
    rewrite !Nat.iter_add. reflexivity.
  - rewrite !IH, Pos2Nat.inj_xO.
    replace (2 * Pos.to_nat n) with (Pos.to_nat n + Pos.to_nat n) by lia.
    rewrite Nat.iter_add. reflexivity.
  - reflexivity.
Qed.

Lemma pos_iter_nat {A} (f : A -> A) (x : A) (k : positive) :
  Pos.iter f x k = Nat.iter (Pos.to_nat k) f x.
Proof. apply Pos2Nat.inj_iter. Qed.

Lemma shr_1_xO_iter (j : nat) (m : positive) :
  Nat.iter j shr_1 (exact (Zpos (Nat.iter j xO m))) = exact (Zpos m).
Proof.
  induction j as [| j IH]; [reflexivity |].
  rewrite Nat.iter_succ_r. simpl. exact IH.
Qed.

Lemma digits2_iter_xO (j : nat) (m : positive) :
  Zpos (digits2_pos (Nat.iter j xO m)) = (Zpos (digits2_pos m) + Z.of_nat j)%Z.
Proof.
  induction j as [| j IH]; simpl Nat.iter.
  - simpl. lia.
  - cbn [digits2_pos]. rewrite Pos2Z.inj_succ, IH. lia.
Qed.

Lemma Zpos_iter_xO (j : nat) (m : positive) :
  Zpos (Nat.iter j xO m) = (Zpos m * 2 ^ Z.of_nat j)%Z.
Proof.
  induction j as [| j IH]; simpl Nat.iter.
  - simpl. lia.
  - rewrite Pos2Z.inj_xO, IH, Nat2Z.inj_succ, Z.pow_succ_r by lia. lia.
Qed.

(** The last step of rounding leaves a mantissa of 53 digits as it is. *)
Lemma round_finish (m : positive) (e : Z) :
  Zpos (digits2_pos m) = 53%Z -> (-1074 <= e <= 971)%Z ->
  (let '(mrs, e') := shr_fexp prec emax (Zpos m) e loc_Exact in
   match shr_m mrs with
   | Z0 => S754_zero false
   | Zpos m' => if (e' <=? emax - prec)%Z then S754_finite false m' e'
                else S754_infinity false
   | Zneg _ => S754_nan
   end) = S754_finite false m e.
Proof.
  intros Hd He. unfold shr_fexp, Zdigits2. rewrite Hd.
  assert (Hs : (fexp prec emax (53 + e) - e = 0)%Z)
    by (unfold fexp, SpecFloat.emin, prec, emax; lia).
  rewrite Hs. cbn [shr shr_record_of_loc shr_m].
  replace (e <=? emax - prec)%Z with true
    by (symmetry; apply Z.leb_le; unfold prec, emax; lia).
  reflexivity.
Qed.

(** A mantissa of 53 digits with an exponent in range is kept as it is. *)
Lemma round_canonical (m : positive) (e : Z) :
  Zpos (digits2_pos m) = 53%Z -> (-1074 <= e <= 971)%Z ->
  binary_round_aux prec emax false (Zpos m) e loc_Exact = S754_finite false m e.
Proof.
  intros Hd He.
  unfold binary_round_aux. unfold shr_fexp at 1. unfold Zdigits2.
  rewrite Hd.
  assert (Hs : (fexp prec emax (53 + e) - e = 0)%Z)
    by (unfold fexp, SpecFloat.emin, prec, emax; lia).
  rewrite Hs. cbn [shr shr_record_of_loc shr_m loc_of_shr_record round_nearest_even].
  apply round_finish; assumption.
Qed.

(** A mantissa of 53 digits followed by [k] zero bits is rounded exactly. *)
Lemma round_shifted (m k : positive) (e : Z) :
  Zpos (digits2_pos m) = 53%Z -> (-1074 <= e <= 971)%Z ->
  binary_round_aux prec emax false (Zpos (Pos.iter xO m k)) (e - Zpos k) loc_Exact
  = S754_finite false m e.
Proof.
  intros Hd He.
  unfold binary_round_aux. unfold shr_fexp at 1. unfold Zdigits2.
  rewrite pos_iter_nat, digits2_iter_xO, Hd, positive_nat_Z.
  cbn [shr_record_of_loc].
  assert (Hs : (fexp prec emax (53 + Zpos k + (e - Zpos k)) - (e - Zpos k) = Zpos k)%Z)
    by (unfold fexp, SpecFloat.emin, prec, emax; lia).
  rewrite Hs. cbn [shr].
  rewrite iter_pos_nat. fold (exact (Zpos (Nat.iter (Pos.to_nat k) xO m))).
  rewrite shr_1_xO_iter.
  replace (e - Zpos k + Zpos k)%Z with e by lia.
  cbn [exact shr_m loc_of_shr_record round_nearest_even].
  apply round_finish; assumption.
Qed.

Lemma digits2_lower (p : positive) : (2 ^ (Zpos (digits2_pos p) - 1) <= Zpos p)%Z.
Proof.
  induction p as [p IH | p IH | ]; cbn [digits2_pos].
  - rewrite Pos2Z.inj_succ.
    replace (Z.succ (Zpos (digits2_pos p)) - 1)%Z with (Z.succ (Zpos (digits2_pos p) - 1)) by lia.
    rewrite Z.pow_succ_r by lia. lia.
  - rewrite Pos2Z.inj_succ.
    replace (Z.succ (Zpos (digits2_pos p)) - 1)%Z with (Z.succ (Zpos (digits2_pos p) - 1)) by lia.
    rewrite Z.pow_succ_r by lia. lia.
  - simpl. lia.
Qed.

Lemma digits2_le_53 (p : positive) : (Zpos p < 2 ^ 53)%Z -> (Zpos (digits2_pos p) <= 53)%Z.
Proof.
  intro Hp. destruct (Z_le_gt_dec (Zpos (digits2_pos p)) 53) as [H | H]; [exact H |].
  pose proof (digits2_lower p) as Hl.
  assert (2 ^ 53 <= 2 ^ (Zpos (digits2_pos p) - 1))%Z by (apply Z.pow_le_mono_r; lia).
  lia.
Qed.

(** The float64 of a positive integer below 2^53: the integer shifted to 53
    digits. *)
Lemma of_int_small (p : positive) :
  (Zpos p < 2 ^ 53)%Z ->
  exists (m : positive) (j : nat),
    of_int (Zpos p) = S754_finite false m (- Z.of_nat j)
    /\ Zpos (digits2_pos m) = 53%Z /\ (Z.of_nat j <= 52)%Z
    /\ Zpos m = (Zpos p * 2 ^ Z.of_nat j)%Z.
Proof.
  intro Hp. pose proof (digits2_le_53 Hp) as Hd.
  unfold of_int, binary_normalize, binary_round, shl_align.
  assert (Hf : (fexp prec emax (Zpos (digits2_pos p) + 0) - 0 = Zpos (digits2_pos p) - 53)%Z)
    by (unfold fexp, SpecFloat.emin, prec, emax; lia).
  rewrite Hf.
  destruct (Zpos (digits2_pos p) - 53)%Z as [| q | q] eqn:Hq; try lia.
  - exists p, 0. rewrite round_canonical by lia. simpl. repeat split; lia.
  - exists (Pos.iter xO p q), (Pos.to_nat q).
    assert (Hd' : Zpos (digits2_pos (Pos.iter xO p q)) = 53%Z)
      by (rewrite pos_iter_nat, digits2_iter_xO, positive_nat_Z; lia).
    assert (Hfe : (fexp prec emax (Zpos (digits2_pos p) + 0) = Zneg q)%Z) by lia.
    rewrite Hfe, round_canonical by (try assumption; lia).
    rewrite positive_nat_Z. repeat split; try assumption; try lia.
    rewrite pos_iter_nat, Zpos_iter_xO, positive_nat_Z. reflexivity.
Qed.

Lemma fmul_one_l (m : positive) (e : Z) :
  Zpos (digits2_pos m) = 53%Z -> (-1074 <= e <= 971)%Z ->
  fmul fone (S754_finite false m e) = S754_finite false m e.
Proof.
  intros Hd He.
  change fone with (S754_finite false 4503599627370496 (-52)).
  unfold fmul, SFmul. cbn [xorb].
  change (4503599627370496 * m)%positive with (Pos.iter xO m 52).
  replace (-52 + e)%Z with (e - 52)%Z by lia.
  apply round_shifted; assumption.
Qed.

Lemma to_int_of_int (n : nat) :
  (Z.of_nat n < 2 ^ 53)%Z -> to_int (fmul fone (of_int (Z.of_nat n))) = Z.of_nat n.
Proof.
  intro Hn. destruct (Z.of_nat n) as [| p | p] eqn:Hz; try lia.
  - reflexivity.
  - destruct (of_int_small Hn) as (m & j & -> & Hd & Hj & Hm).
    rewrite fmul_one_l by (try assumption; lia).
    unfold to_int. destruct (- Z.of_nat j)%Z as [| q | q] eqn:Hq; try lia.
    + replace (Z.of_nat j) with 0%Z in Hm by lia. simpl in Hm. lia.
    + rewrite Hm. replace (Zpos q) with (Z.of_nat j) by lia.
      apply Z.div_mul. apply Z.pow_nonzero; lia.
Qed.

(** ** Slice sizes *)

Lemma nth_error_tl {A} (l : list A) (i : nat) : nth_error (tl l) i = nth_error l (S i).
Proof. destruct l; [destruct i |]; reflexivity. Qed.

Lemma nth_error_removelast {A} (l : list A) (i : nat) :
  S i < length l -> nth_error (removelast l) i = nth_error l i.
Proof.
  revert i; induction l as [| a l IH]; intros i Hi; [simpl in Hi; lia |].
  destruct l as [| b l]; [simpl in Hi; lia |].
  destruct i as [| i]; [reflexivity |].
  change (removelast (a :: b :: l)) with (a :: removelast (b :: l)).
  cbn [nth_error]. apply IH. simpl in *. lia.
Qed.

Lemma length_removelast {A} (l : list A) : length (removelast l) = length l - 1.
Proof.
  induction l as [| a l IH]; [reflexivity |].
  destruct l as [| b l]; [reflexivity |].
  change (removelast (a :: b :: l)) with (a :: removelast (b :: l)).
  simpl length in *. lia.
Qed.

Lemma length_set_last (y : list float64) (v : float64) :
  y <> [] -> length (set_last y v) = length y.
Proof.
  intro Hy. unfold set_last. rewrite length_app, length_removelast. simpl.
  destruct y; [congruence | simpl; lia].
Qed.

Lemma nth_error_set_last_end (y : list float64) (v : float64) :
  nth_error (set_last y v) (length y - 1) = Some v.
Proof.
  unfold set_last. rewrite nth_error_app2; rewrite length_removelast; [| lia].
  rewrite Nat.sub_diag. reflexivity.
Qed.

Lemma nth_error_set_last_before (y : list float64) (v : float64) (i : nat) :
  S i < length y -> nth_error (set_last y v) i = nth_error y i.
Proof.
  intro Hi. unfold set_last.
  rewrite nth_error_app1 by (rewrite length_removelast; lia).
  apply nth_error_removelast; assumption.
Qed.

Lemma nth_error_arange (n i : nat) :
  i < n -> nth_error (arange n) i = Some (of_int (Z.of_nat i)).
Proof.
  intro Hi. unfold arange. rewrite nth_error_map, nth_error_seq.
  apply Nat.ltb_lt in Hi. rewrite Hi. reflexivity.
Qed.

(** The points of [linspace(0, 1, lc+1)] for [1 <= lc]. *)
Lemma linspace_unit (lc : Z) :
  (1 <= lc)%Z ->
  exists p, linspace fzero fone (lc + 1) = Ok p
    /\ length p = S (Z.to_nat lc)
    /\ (forall i, i < Z.to_nat lc -> nth_error p i = Some (grid_point lc i))
    /\ nth_error p (Z.to_nat lc) = Some fone.
Proof.
  intro Hlc. unfold linspace.
  replace (lc + 1 <? 0)%Z with false by (symmetry; apply Z.ltb_ge; lia).
  replace (1 <? lc + 1)%Z with true by (symmetry; apply Z.ltb_lt; lia).
  replace (lc + 1 - 1)%Z with lc by lia.
  replace (Z.to_nat (lc + 1)) with (S (Z.to_nat lc)) by lia.
  set (n := Z.to_nat lc).
  set (step := fdiv (fsub fone fzero) (of_int lc)).
  set (y := map (fun v => fadd v fzero) _).
  assert (Hlen : length y = S n).
  { unfold y. rewrite length_map. destruct (feqb step fzero); unfold scale, arange;
      rewrite ?length_map, length_seq; reflexivity. }
  assert (Hy : forall i, i < S n -> nth_error y i = Some (grid_point lc i)).
  { intros i Hi. unfold y, grid_point. fold step.
    destruct (feqb step fzero); unfold scale;
      rewrite !nth_error_map, (nth_error_arange Hi); reflexivity. }
  exists (set_last y fone). split; [reflexivity |]. split; [| split].
  - rewrite length_set_last; [exact Hlen | intro E; rewrite E in Hlen; discriminate].
  - intros i Hi. rewrite nth_error_set_last_before by lia. apply Hy. lia.
  - replace n with (length y - 1) by lia. apply nth_error_set_last_end.
Qed.

(** C2 (as amended): for [1 <= lc] and a dataset of [n < 2^53] records there
    are exactly [lc] slice sizes; the one of index [i < lc] is the float64
    product of the [i]-th point of [linspace(0, 1, lc+1)] with [n],
    truncated toward zero, and the last one is [n]. *)
Theorem slice_sizes_truncate (lc : Z) (n : nat) :
  (1 <= lc)%Z -> (Z.of_nat n < 2 ^ 53)%Z ->
  exists s, slice_sizes lc n = Ok s
    /\ length s = Z.to_nat lc
    /\ (forall i, 1 <= i < Z.to_nat lc ->
          nth_error s (i - 1)
          = Some (to_int (fmul (grid_point lc i) (of_int (Z.of_nat n)))))
    /\ nth_error s (Z.to_nat lc - 1) = Some (Z.of_nat n).
Proof.
  intros Hlc Hn. destruct (linspace_unit Hlc) as (p & Hp & Hlen & Hpts & Hend).
  unfold slice_sizes. rewrite Hp. cbn [rbind]. eexists. split; [reflexivity |].
  unfold astype_int, scale. split; [| split].
  - destruct p; [discriminate |]. simpl in *. rewrite !length_map. lia.
  - intros i Hi. rewrite nth_error_tl.
    replace (S (i - 1)) with i by lia.
    rewrite !nth_error_map, Hpts by lia. reflexivity.
  - rewrite nth_error_tl. replace (S (Z.to_nat lc - 1)) with (Z.to_nat lc) by lia.
    rewrite !nth_error_map, Hend. cbn [option_map]. f_equal.
    apply to_int_of_int; assumption.
Qed.

Lemma slice_sizes_truncate_witness :
  (1 <= 3)%Z /\ (Z.of_nat 10 < 2 ^ 53)%Z
  /\ exists s, slice_sizes 3 10 = Ok s
       /\ length s = Z.to_nat 3
       /\ (forall i, 1 <= i < Z.to_nat 3 ->
             nth_error s (i - 1)
             = Some (to_int (fmul (grid_point 3 i) (of_int (Z.of_nat 10)))))
       /\ nth_error s (Z.to_nat 3 - 1) = Some (Z.of_nat 10).
Proof.
  split; [lia |]. split; [reflexivity |].
  apply (@slice_sizes_truncate 3 10); [lia | reflexivity].
Defined.

(** C2, as stated, fails: for 10 records and 3 steps the sizes are 3, 6, 10
    and not the ceilings 4, 7, 10; for 7 records and 7 steps the size 4 is
    repeated, so the sizes are not strictly increasing. *)
Lemma slice_sizes_counterexample :
  slice_sizes 3 10 = Ok [3; 6; 10]%Z
  /\ spec_slice_sizes 3 10 = [4; 7; 10]%Z
  /\ slice_sizes 3 10 <> Ok (spec_slice_sizes 3 10)
  /\ slice_sizes 7 7 = Ok [1; 2; 3; 4; 4; 6; 7]%Z.
Proof.
  assert (H3 : slice_sizes 3 10 = Ok [3; 6; 10]%Z) by (vm_compute; reflexivity).
  assert (H7 : slice_sizes 7 7 = Ok [1; 2; 3; 4; 4; 6; 7]%Z) by (vm_compute; reflexivity).
  repeat split; try assumption.
  rewrite H3. discriminate.
Qed.

(** With one step, the default of [-lc], the only slice is the dataset. *)
Lemma one_step_one_slice (n : nat) :
  (Z.of_nat n < 2 ^ 53)%Z -> slice_sizes 1 n = Ok [Z.of_nat n].
Proof.
  intro Hn. unfold slice_sizes.
  change (linspace fzero fone (1 + 1)) with (Ok [fadd (fmul fzero fone) fzero; fone]).
  cbn [rbind scale astype_int map tl]. rewrite to_int_of_int by exact Hn. reflexivity.
Qed.

(** ** Labels *)

Lemma compare_refl (s : string) : String.compare s s = Eq.
Proof.
  pose proof (String.compare_antisym s s) as H.
  destruct (String.compare s s); simpl in H; congruence.
Qed.

Lemma compare_Lt_neq (a b : string) : String.compare a b = Lt -> a <> b.
Proof. intros H E. subst b. rewrite compare_refl in H. discriminate. Qed.

Lemma in_insert_label (x s : label) (l : list label) :
  In x (insert_label s l) <-> x = s \/ In x l.
Proof.
  induction l as [| a l IH]; simpl.
  - intuition.
  - destruct (String.compare s a) eqn:E; simpl.
    + apply String.compare_eq_iff in E. subst a. intuition.
    + intuition.
    + rewrite IH. intuition.
Qed.

Lemma in_unique_labels (x : label) (a b : list label) :
  In x (unique_labels a b) <-> In x (a ++ b).
Proof.
  unfold unique_labels. induction (a ++ b) as [| c l IH]; simpl.
  - reflexivity.
  - rewrite in_insert_label, IH. intuition.
Qed.

Lemma ascending_insert (s : label) (l : list label) :
  ascending l -> ascending (insert_label s l).
Proof.
  induction l as [| a l IH]; intro Hl; [exact I |].
  cbn [insert_label]. destruct (String.compare s a) eqn:E.
  - exact Hl.
  - split; assumption.
  - assert (Ha : String.compare a s = Lt)
      by (rewrite String.compare_antisym, E; reflexivity).
    destruct l as [| b l]; [split; [exact Ha | exact I] |].
    destruct Hl as [Hab Hl]. specialize (IH Hl).
    cbn [insert_label] in *. destruct (String.compare s b); split; assumption.
Qed.

Lemma ascending_unique_labels (a b : list label) : ascending (unique_labels a b).
Proof.
  unfold unique_labels. induction (a ++ b) as [| c l IH]; [exact I |].
  apply ascending_insert; exact IH.
Qed.

Lemma two_labels_distinct (a b : list label) (l0 l1 : label) :
  unique_labels a b = [l0; l1] -> l0 <> l1.
Proof.
  intro H. pose proof (ascending_unique_labels a b) as Hs. rewrite H in Hs.
  apply compare_Lt_neq, Hs.
Qed.

Lemma compare_Lt_asym (a b : string) :
  String.compare a b = Lt -> String.compare b a = Lt -> False.
Proof.
  intros Hab Hba. rewrite String.compare_antisym, Hab in Hba. discriminate.
Qed.

(** When exactly two labels occur, [unique_labels] lists them in order. *)
Lemma exactly_two_labels (a b : list label) (l0 l1 : label) :
  String.compare l0 l1 = Lt ->
  In l0 (a ++ b) -> In l1 (a ++ b) ->
  (forall x, In x (a ++ b) -> x = l0 \/ x = l1) ->
  unique_labels a b = [l0; l1].
Proof.
  intros Hlt H0 H1 Hall.
  pose proof (ascending_unique_labels a b) as Hasc.
  assert (Hmem : forall x, In x (unique_labels a b) -> x = l0 \/ x = l1)
    by (intros x Hx; apply Hall, in_unique_labels; exact Hx).
  apply (in_unique_labels l0 a b) in H0. apply (in_unique_labels l1 a b) in H1.
  pose proof (compare_Lt_neq Hlt) as Hne.
  assert (Hirr : String.compare l1 l1 = Lt -> False)
    by (rewrite compare_refl; discriminate).
  assert (Hirr0 : String.compare l0 l0 = Lt -> False)
    by (rewrite compare_refl; discriminate).
  destruct (unique_labels a b) as [| x [| y r]].
  - destruct H0.
  - destruct H0 as [<- | []]. destruct H1 as [<- | []]. congruence.
  - destruct Hasc as [Hxy Hasc].
    destruct (Hmem x (or_introl eq_refl)) as [-> | ->];
      destruct (Hmem y (or_intror (or_introl eq_refl))) as [-> | ->];
      try (exfalso; auto; fail);
      try (exfalso; eapply compare_Lt_asym; eassumption).
    destruct r as [| z r]; [reflexivity |]. exfalso.
    destruct Hasc as [Hyz _].
    destruct (Hmem z (or_intror (or_intror (or_introl eq_refl)))) as [-> | ->].
    + eapply compare_Lt_asym; eassumption.
    + auto.
Qed.

(** A list of two unique labels: two distinct labels, and no other occurs. *)
Lemma two_labels_occur (a b : list label) :
  length (unique_labels a b) = 2 ->
  exists l0 l1, l0 <> l1 /\ forall x, In x (a ++ b) <-> x = l0 \/ x = l1.
Proof.
  intro Hlen. destruct (unique_labels a b) as [| l0 [| l1 [| z r]]] eqn:Hu;
    try discriminate.
  exists l0, l1. split; [eapply two_labels_distinct; exact Hu |].
  intro x. rewrite <- in_unique_labels, Hu. simpl. intuition.
Qed.

Lemma unique_labels_single (a b : list label) (c : label) :
  a ++ b <> [] -> (forall x, In x (a ++ b) -> x = c) -> unique_labels a b = [c].
Proof.
  unfold unique_labels. induction (a ++ b) as [| x l IH]; intros Hne Hall; [congruence |].
  assert (x = c) by (apply Hall; left; reflexivity). subst x.
  destruct l as [| y l]; [reflexivity |].
  cbn [fold_right]. cbn [fold_right] in IH. rewrite IH.
  - simpl. rewrite compare_refl. reflexivity.
  - discriminate.
  - intros z Hz. apply Hall. right. exact Hz.
Qed.

(** ** The confusion matrix *)

Lemma length_concat_rows {A B C} (f : A -> B -> C) (l1 : list A) (l2 : list B) :
  length (concat (map (fun a => map (f a) l2) l1)) = length l1 * length l2.
Proof.
  induction l1 as [| a l1 IH]; [reflexivity |].
  simpl. rewrite length_app, length_map, IH. reflexivity.
Qed.

Lemma unpack4_ok (v : list nat) (c : nat * nat * nat * nat) :
  unpack4 v = Ok c -> length v = 4.
Proof.
  destruct v as [| a [| b [| c' [| d [| e v]]]]]; simpl; intro H;
    try discriminate; reflexivity.
Qed.

Lemma count_pairs_total (l0 l1 : label) (ps : list (label * label)) :
  l0 <> l1 ->
  (forall p, In p ps -> (fst p = l0 \/ fst p = l1) /\ (snd p = l0 \/ snd p = l1)) ->
  count_if (fun tp => String.eqb (fst tp) l1 && String.eqb (snd tp) l1) ps
  + count_if (fun tp => String.eqb (fst tp) l0 && String.eqb (snd tp) l1) ps
  + count_if (fun tp => String.eqb (fst tp) l1 && String.eqb (snd tp) l0) ps
  + count_if (fun tp => String.eqb (fst tp) l0 && String.eqb (snd tp) l0) ps
  = length ps.
Proof.
  intros Hne. unfold count_if. induction ps as [| [t p] ps IH]; intro H; [reflexivity |].
  specialize (IH (fun q Hq => H q (or_intror Hq))).
  destruct (H (t, p) (or_introl eq_refl)) as [Ht Hp]. cbn [fst snd] in Ht, Hp.
  cbn [filter fst snd].
  destruct (String.eqb_spec t l0), (String.eqb_spec t l1),
           (String.eqb_spec p l0), (String.eqb_spec p l1);
    subst; try congruence; try (destruct Ht; congruence); try (destruct Hp; congruence);
    cbn [andb length]; lia.
Qed.

Lemma in_combine_labels (real last : list label) (l0 l1 : label) :
  unique_labels real last = [l0; l1] ->
  forall p, In p (combine real last) ->
    (fst p = l0 \/ fst p = l1) /\ (snd p = l0 \/ snd p = l1).
Proof.
  intros Hu [t p] Hin.
  pose proof (in_combine_l _ _ _ _ Hin) as Ht.
  pose proof (in_combine_r _ _ _ _ Hin) as Hp.
  assert (Hmem : forall x, In x (real ++ last) -> x = l0 \/ x = l1).
  { intros x Hx. apply (in_unique_labels x real last) in Hx. rewrite Hu in Hx.
    simpl in Hx. intuition. }
  split; apply Hmem, in_or_app; [left | right]; assumption.
Qed.

(** The four counts add up to the number of samples. *)
Lemma confusion_counts_total (real last : list label) (l0 l1 : label) :
  length real = length last -> unique_labels real last = [l0; l1] ->
  count_pairs l1 l1 real last + count_pairs l0 l1 real last
  + count_pairs l1 l0 real last + count_pairs l0 l0 real last = length last.
Proof.
  intros Hlen Hu. unfold count_pairs.
  rewrite (count_pairs_total _ (two_labels_distinct _ _ Hu) (in_combine_labels _ _ Hu)).
  rewrite length_combine. lia.
Qed.

(** ** The report *)

Lemma append_assoc (a b c : string) : ((a ++ b) ++ c = a ++ (b ++ c))%string.
Proof. induction a as [| x a IH]; simpl; [reflexivity | rewrite IH; reflexivity]. Qed.

Lemma printResults_run `{Library} (name : string) (real : list label)
    (predicts : list (list label)) (w : world) :
  printResults name real predicts w =
  let w1 := emit w [("Classifier: " ++ name ++ nl)%string] in
  match getlast predicts with
  | Raise e => (Raise e, w1)
  | Ok last =>
      match classification_report real last with
      | Raise e => (Raise e, w1)
      | Ok report =>
          let w2 := emit w1 [(report ++ nl)%string] in
          match counts_of real last with
          | Raise e => (Raise e, w2)
          | Ok (tn, fp, fn, tp) =>
              let w3 := emit w2 (matrix_lines tn fp fn tp) in
              if 1 <? length predicts then
                match learning_curve real predicts with
                | Raise e => (Raise e, w3)
                | Ok scores =>
                    (Ok tt, emit w3 [("Learning curve:" ++ nl)%string;
                                     (repr_list scores ++ nl)%string])
                end
              else (Ok tt, w3)
          end
      end
  end.
Proof.
  unfold printResults, counts_of, bind, lift, print, ret.
  assert (E1 : (join " " ["Classifier:"; name] ++ nl = "Classifier: " ++ name ++ nl)%string)
    by reflexivity.
  rewrite E1. cbn zeta.
  destruct (getlast predicts) as [last | e]; [| reflexivity].
  destruct (classification_report real last) as [report | e]; [| reflexivity].
  destruct (confusion_matrix real last) as [cm | e]; [| reflexivity].
  cbn [rbind].
  destruct (unpack4 (ravel cm)) as [[[[tn fp] fn] tp] | e]; [| reflexivity].
  assert (E3 : forall w0,
    emit (emit (emit (emit (emit w0 [(join " " ["Confusion Matrix:"] ++ nl)%string])
      [(join " " [" a      b     <--- Classified as"] ++ nl)%string])
      [(join " " [(format_5d tp ++ "  " ++ format_5d fp ++ "   a = REAL")%string] ++ nl)%string])
      [(join " " [(format_5d fn ++ "  " ++ format_5d tn ++ "   b = FAKE" ++ nl)%string] ++ nl)%string])
      [(join " " [] ++ nl)%string]
    = emit w0 (matrix_lines tn fp fn tp)).
  { intro w0. unfold emit, matrix_lines. cbn [sink cv_log rng join String.concat].
    rewrite <- !app_assoc. cbn [app].
    rewrite !append_assoc. reflexivity. }
  rewrite E3.
  destruct (1 <? length predicts); [| reflexivity].
  destruct (learning_curve real predicts) as [scores | e]; [| reflexivity].
  unfold emit. cbn [sink cv_log rng join String.concat].
  rewrite <- !app_assoc. reflexivity.
Qed.

Lemma counts_of_two (real last : list label) (l0 l1 : label) :
  length real = length last -> unique_labels real last = [l0; l1] ->
  counts_of real last
  = Ok (count_pairs l0 l0 real last, count_pairs l0 l1 real last,
        count_pairs l1 l0 real last, count_pairs l1 l1 real last).
Proof.
  intros Hlen Hu. unfold counts_of, confusion_matrix.
  apply Nat.eqb_eq in Hlen. rewrite Hlen, Hu. reflexivity.
Qed.

Lemma counts_of_ok (real last : list label) (c : nat * nat * nat * nat) :
  counts_of real last = Ok c ->
  length real = length last /\ length (unique_labels real last) = 2.
Proof.
  unfold counts_of, confusion_matrix.
  destruct (length real =? length last) eqn:E; [| discriminate].
  cbn [rbind]. intro H. apply unpack4_ok in H. unfold ravel in H.
  rewrite length_concat_rows in H. apply Nat.eqb_eq in E. split; [exact E |].
  destruct (length (unique_labels real last)) as [| [| [| n]]]; simpl in H; lia.
Qed.

Lemma counts_of_single (real last : list label) (c : label) :
  length real = length last -> unique_labels real last = [c] ->
  counts_of real last = Raise (ValueError (Unpack 4 1)).
Proof.
  intros Hlen Hu. unfold counts_of, confusion_matrix.
  apply Nat.eqb_eq in Hlen. rewrite Hlen, Hu. reflexivity.
Qed.

Lemma classification_report_ok `{Library} (real last : list label) :
  length real = length last -> unique_labels real last <> [] ->
  classification_report real last = Ok (report_text real last).
Proof.
  intros Hlen Hne. unfold classification_report.
  apply Nat.eqb_eq in Hlen. rewrite Hlen.
  destruct (unique_labels real last); [congruence | reflexivity].
Qed.

Lemma sink_emit (w : world) (l : list string) : sink (emit w l) = sink w ++ l.
Proof. reflexivity. Qed.

(** C7 (as amended): when the last prediction sequence has as many entries
    as the true labels and exactly two labels [l0 < l1] occur in the two
    together, [printResults] writes, after the classifier line, the
    classification report of the true labels against the last sequence,
    then the confusion matrix: a first row (tp, fp) ended by "a = REAL" and
    a second row (fn, tn) ended by "b = FAKE", where the positive class is
    the greater label [l1]; the counts come from the last sequence only and
    add up to its length.  Whatever follows ([rest]) is the learning curve. *)
Theorem report_uses_last_sequence `{Library} (name : string) (real last : list label)
    (predicts : list (list label)) (l0 l1 : label) (w : world) :
  getlast predicts = Ok last ->
  length real = length last ->
  String.compare l0 l1 = Lt ->
  In l0 (real ++ last) -> In l1 (real ++ last) ->
  (forall x, In x (real ++ last) -> x = l0 \/ x = l1) ->
  let tp := count_pairs l1 l1 real last in
  let fp := count_pairs l0 l1 real last in
  let fn := count_pairs l1 l0 real last in
  let tn := count_pairs l0 l0 real last in
  (exists rest,
     sink (snd (printResults name real predicts w))
     = sink w
       ++ [("Classifier: " ++ name ++ nl)%string;
           (report_text real last ++ nl)%string;
           ("Confusion Matrix:" ++ nl)%string;
           (" a      b     <--- Classified as" ++ nl)%string;
           (format_5d tp ++ "  " ++ format_5d fp ++ "   a = REAL" ++ nl)%string;
           (format_5d fn ++ "  " ++ format_5d tn ++ "   b = FAKE" ++ nl ++ nl)%string;
           nl]
       ++ rest)
  /\ tp + fp + fn + tn = length last.
Proof.
  intros Hlast Hlen Hlt H0 H1 Hall tp fp fn tn.
  pose proof (exactly_two_labels real last Hlt H0 H1 Hall) as Hu.
  split.
  - rewrite printResults_run. cbn zeta.
    rewrite Hlast, classification_report_ok
      by (try exact Hlen; rewrite Hu; discriminate).
    erewrite counts_of_two by eassumption.
    fold tp fp fn tn.
    destruct (1 <? length predicts).
    + destruct (learning_curve real predicts) as [scores | e]; cbn [snd];
        rewrite ?sink_emit, <- ?app_assoc.
      * eexists. reflexivity.
      * exists []. reflexivity.
    + exists []. cbn [snd]. rewrite ?sink_emit, <- ?app_assoc. reflexivity.
  - apply confusion_counts_total; assumption.
Qed.

Lemma report_uses_last_sequence_witness :
  getlast [Sample.guess6] = Ok Sample.guess6
  /\ length Sample.real6 = length Sample.guess6
  /\ String.compare "FAKE" "REAL" = Lt
  /\ (exists rest,
        sink (snd (printResults (H := Sample.library) "LinearSVC" Sample.real6
                     [Sample.guess6] Sample.world0))
        = ["Classifier: LinearSVC" ++ nl; "report" ++ nl; "Confusion Matrix:" ++ nl;
           " a      b     <--- Classified as" ++ nl;
           "    4      0   a = REAL" ++ nl;
           "    1      1   b = FAKE" ++ nl ++ nl;
           nl]%string ++ rest)
  /\ 4 + 0 + 1 + 1 = 6.
Proof.
  split; [reflexivity |]. split; [reflexivity |]. split; [reflexivity |].
  apply (@report_uses_last_sequence Sample.library "LinearSVC" Sample.real6
           Sample.guess6 [Sample.guess6] "FAKE" "REAL" Sample.world0);
    try reflexivity.
  - simpl. tauto.
  - simpl. tauto.
  - intros x Hx. simpl in Hx. intuition.
Defined.

(** C7, as stated, fails when only one class occurs: the run stops at the
    unpacking of the matrix, after two writes, and no row of the matrix is
    written. *)
Lemma report_one_class_counterexample :
  let run := printResults (H := Sample.library) "LinearSVC" ["REAL"; "REAL"]
               [["REAL"; "REAL"]] Sample.world0 in
  fst run = Raise (ValueError (Unpack 4 1))
  /\ sink (snd run) = ["Classifier: LinearSVC" ++ nl; "report" ++ nl]%string.
Proof. vm_compute. split; reflexivity. Qed.

(** C10, as stated, fails where it says that no report is produced: on true
    labels and predictions of one class the run stops at the unpacking of
    the matrix, and the classification report is in the output by then. *)
Lemma one_class_report_counterexample :
  let run := printResults (H := Sample.library) "MultinomialNB" ["FAKE"; "FAKE"; "FAKE"]
               [["FAKE"; "FAKE"; "FAKE"]] Sample.world0 in
  fst run = Raise (ValueError (Unpack 4 1))
  /\ In ("report" ++ nl)%string (sink (snd run))
  /\ sink (snd run) <> sink Sample.world0.
Proof.
  vm_compute. split; [reflexivity |]. split; [right; left; reflexivity | discriminate].
Qed.

(** C10 (as amended): [printResults] returns normally only when exactly two
    distinct labels occur in the true labels and the last prediction
    sequence together.  When a single class occurs, in sequences of one
    length, the unpacking of the flattened matrix (one count instead of
    four) raises [ValueError]; the line of the classifier and the
    classification report are written by then, and nothing after them: no
    line of the confusion matrix and no learning curve. *)
Theorem report_needs_two_classes `{Library} (name : string) (real : list label)
    (predicts : list (list label)) (w : world) :
  (forall w', printResults name real predicts w = (Ok tt, w') ->
     exists last l0 l1,
       getlast predicts = Ok last /\ l0 <> l1
       /\ forall x, In x (real ++ last) <-> x = l0 \/ x = l1)
  /\ (forall last c,
        getlast predicts = Ok last -> length real = length last ->
        real ++ last <> [] -> (forall x, In x (real ++ last) -> x = c) ->
        fst (printResults name real predicts w) = Raise (ValueError (Unpack 4 1))
        /\ sink (snd (printResults name real predicts w))
           = sink w ++ [("Classifier: " ++ name ++ nl)%string;
                        (report_text real last ++ nl)%string]).
Proof.
  split.
  - intros w'. rewrite printResults_run. cbn zeta.
    destruct (getlast predicts) as [last | e]; [| discriminate].
    destruct (classification_report real last) as [report | e]; [| discriminate].
    destruct (counts_of real last) as [c | e] eqn:Hc; [| discriminate].
    intros _. apply counts_of_ok in Hc. destruct Hc as [_ Hc].
    destruct (two_labels_occur _ _ Hc) as (l0 & l1 & Hne & Hmem).
    exists last, l0, l1. split; [reflexivity |]. split; assumption.
  - intros last c Hlast Hlen Hne Hall.
    assert (Hu : unique_labels real last = [c])
      by (apply unique_labels_single; assumption).
    rewrite printResults_run. cbn zeta.
    rewrite Hlast, classification_report_ok
      by (try exact Hlen; rewrite Hu; discriminate).
    erewrite counts_of_single; [| exact Hlen | exact Hu].
    cbn [fst snd]. split; [reflexivity |].
    rewrite !sink_emit, <- app_assoc. reflexivity.
Qed.

Lemma report_needs_two_classes_witness :
  (printResults (H := Sample.library) "LinearSVC" Sample.real6 [Sample.guess6]
     Sample.world0
   = (Ok tt, snd (printResults (H := Sample.library) "LinearSVC" Sample.real6
                    [Sample.guess6] Sample.world0))
   /\ exists last l0 l1,
        getlast [Sample.guess6] = Ok last /\ l0 <> l1
        /\ forall x, In x (Sample.real6 ++ last) <-> x = l0 \/ x = l1)
  /\ (getlast [["REAL"; "REAL"]] = Ok ["REAL"; "REAL"]
      /\ fst (printResults (H := Sample.library) "LinearSVC" ["REAL"; "REAL"]
                [["REAL"; "REAL"]] Sample.world0)
         = Raise (ValueError (Unpack 4 1))
      /\ sink (snd (printResults (H := Sample.library) "LinearSVC" ["REAL"; "REAL"]
                      [["REAL"; "REAL"]] Sample.world0))
         = ["Classifier: LinearSVC" ++ nl; "report" ++ nl]%string).
Proof.
  split.
  - assert (Hrun : printResults (H := Sample.library) "LinearSVC" Sample.real6
                     [Sample.guess6] Sample.world0
                   = (Ok tt, snd (printResults (H := Sample.library) "LinearSVC"
                                    Sample.real6 [Sample.guess6] Sample.world0)))
      by (vm_compute; reflexivity).
    split; [exact Hrun |].
    exact (proj1 (@report_needs_two_classes Sample.library "LinearSVC" Sample.real6
                    [Sample.guess6] Sample.world0) _ Hrun).
  - split; [reflexivity |].
    apply (proj2 (@report_needs_two_classes Sample.library "LinearSVC" ["REAL"; "REAL"]
                    [["REAL"; "REAL"]] Sample.world0) ["REAL"; "REAL"] "REAL");
      try reflexivity.
    + discriminate.
    + intros x Hx. simpl in Hx. intuition.
Defined.

(** ** The learning curve *)

Lemma firstn_by_length {A} (j : nat) (l : list A) :
  firstn j l = firstn (length (firstn j l)) l.
Proof.
  rewrite length_firstn. destruct (Nat.le_ge_cases j (length l)) as [Hj | Hj].
  - rewrite Nat.min_l by exact Hj. reflexivity.
  - rewrite Nat.min_r by exact Hj. rewrite !firstn_all2; [reflexivity | lia | exact Hj].
Qed.

Lemma take_by_length {A} (k : Z) (l : list A) : take k l = firstn (length (take k l)) l.
Proof. unfold take. destruct (0 <=? k)%Z; apply firstn_by_length. Qed.

Lemma accuracy_score_ok (real p : list label) (k : Z) (v : float64) :
  accuracy_score (take k real) p = Ok v ->
  v = accuracy (firstn (length p) real) p.
Proof.
  unfold accuracy_score. destruct (length (take k real) =? length p) eqn:E; [| discriminate].
  apply Nat.eqb_eq in E. intro Hv. injection Hv as <-.
  rewrite (take_by_length k real), E. reflexivity.
Qed.

Lemma rmap_seq_shift {B} (f : nat -> result B) (k n : nat) :
  rmap f (seq (S k) n) = rmap (fun i => f (S i)) (seq k n).
Proof.
  revert k; induction n as [| n IH]; intro k; [reflexivity |].
  cbn [seq rmap]. rewrite IH. reflexivity.
Qed.

Lemma curve_scores (real : list label) (predicts : list (list label)) :
  forall (s : list Z) (scores : list float64),
  rmap (fun i => rbind (getitem s i) (fun si =>
                 rbind (getitem predicts i) (fun p =>
                 accuracy_score (take si real) p)))
       (seq 0 (length predicts)) = Ok scores ->
  scores = map (fun p => accuracy (firstn (length p) real) p) predicts.
Proof.
  induction predicts as [| p ps IH]; intros s scores.
  - simpl. intro Hs. injection Hs as <-. reflexivity.
  - cbn [length seq rmap]. rewrite rmap_seq_shift.
    destruct s as [| s0 s]; [discriminate |].
    cbn [getitem nth_error rbind].
    destruct (accuracy_score (take s0 real) p) as [v | e] eqn:Hv; [| discriminate].
    cbn [rbind].
    destruct (rmap _ (seq 0 (length ps))) as [vs | e] eqn:Hvs; [| discriminate].
    cbn [rbind]. intro Hs. injection Hs as <-.
    cbn [map]. f_equal.
    + eapply accuracy_score_ok; exact Hv.
    + eapply IH; exact Hvs.
Qed.

Lemma learning_curve_ok (real : list label) (predicts : list (list label))
    (scores : list float64) :
  learning_curve real predicts = Ok scores ->
  scores = map (fun p => accuracy (firstn (length p) real) p) predicts.
Proof.
  unfold learning_curve.
  destruct (curve_sizes (length predicts) (length real)) as [s | e]; [| discriminate].
  cbn [rbind]. apply curve_scores.
Qed.

(** C4: when [printResults] is given more than one prediction sequence and
    returns, what it wrote ends with the line "Learning curve:" and the list
    of the scores, one per sequence and in their order, the score of a
    sequence [p] being its accuracy against the first [length p] true
    labels. *)
Theorem learning_curve_prefix_accuracy `{Library} (name : string)
    (real : list label) (predicts : list (list label)) (w w' : world) :
  1 < length predicts ->
  printResults name real predicts w = (Ok tt, w') ->
  exists report,
    length report = 7
    /\ sink w'
       = sink w ++ report
         ++ [("Learning curve:" ++ nl)%string;
             (repr_list (map (fun p => accuracy (firstn (length p) real) p) predicts)
              ++ nl)%string].
Proof.
  intros Hmany. rewrite printResults_run. cbn zeta.
  destruct (getlast predicts) as [last | e]; [| discriminate].
  destruct (classification_report real last) as [report | e]; [| discriminate].
  destruct (counts_of real last) as [[[[tn fp] fn] tp] | e]; [| discriminate].
  apply Nat.ltb_lt in Hmany. rewrite Hmany.
  destruct (learning_curve real predicts) as [scores | e] eqn:Hs; [| discriminate].
  intro Hrun. injection Hrun as <-.
  apply learning_curve_ok in Hs. subst scores.
  exists ([("Classifier: " ++ name ++ nl)%string; (report ++ nl)%string]
          ++ matrix_lines tn fp fn tp).
  split; [reflexivity |].
  rewrite !sink_emit, <- !app_assoc. reflexivity.
Qed.

Lemma learning_curve_prefix_accuracy_witness :
  let predicts := [firstn 3 Sample.guess6; Sample.guess6] in
  let run := printResults (H := Sample.library) "LinearSVC" Sample.real6 predicts
               Sample.world0 in
  1 < length predicts
  /\ run = (Ok tt, snd run)
  /\ exists report,
       length report = 7
       /\ sink (snd run)
          = sink Sample.world0 ++ report
            ++ [("Learning curve:" ++ nl)%string;
                (repr_list (H := Sample.library)
                   (map (fun p => accuracy (firstn (length p) Sample.real6) p) predicts)
                 ++ nl)%string].
Proof.
  intros predicts run.
  assert (Hmany : 1 < length predicts) by (simpl; lia).
  assert (Hrun : run = (Ok tt, snd run)) by (vm_compute; reflexivity).
  split; [exact Hmany |]. split; [exact Hrun |].
  exact (@learning_curve_prefix_accuracy Sample.library "LinearSVC" Sample.real6
           predicts Sample.world0 (snd run) Hmany Hrun).
Defined.

(** ** Shuffling *)

Lemma set_nth_perm {A} (t : list A) (j : nat) (b h : A) :
  nth_error t j = Some b -> Permutation (b :: set_nth j h t) (h :: t).
Proof.
  revert j; induction t as [| c t IH]; intros j Hj.
  - destruct j; discriminate.
  - destruct j as [| j]; cbn [set_nth nth_error] in *.
    + injection Hj as ->. apply perm_swap.
    + rewrite perm_swap. rewrite (IH _ Hj). apply perm_swap.
Qed.

Lemma swap_perm {A} (x : list A) (i j : nat) : Permutation (swap x i j) x.
Proof.
  unfold swap. revert i j; induction x as [| h t IH]; intros i j.
  - destruct i, j; reflexivity.
  - destruct i as [| i], j as [| j]; cbn [nth_error].
    + reflexivity.
    + destruct (nth_error t j) as [b |] eqn:Hj; [| reflexivity].
      cbn [set_nth]. apply set_nth_perm; exact Hj.
    + destruct (nth_error t i) as [a |] eqn:Hi; [| reflexivity].
      cbn [set_nth]. apply set_nth_perm; exact Hi.
    + specialize (IH i j).
      destruct (nth_error t i) as [a |], (nth_error t j) as [b |];
        try reflexivity.
      cbn [set_nth]. apply perm_skip. exact IH.
Qed.

Lemma fisher_yates_perm {A} (i : nat) :
  forall (x : list A) (g : random_state), Permutation (fst (fisher_yates i x g)) x.
Proof.
  induction i as [| i IH]; intros x g; [reflexivity |].
  cbn [fisher_yates]. destruct (rk_interval (S i) g) as [j g'].
  rewrite IH. apply swap_perm.
Qed.

Lemma shuffled_indices_perm (n : nat) (g : random_state) :
  Permutation (fst (shuffled_indices n g)) (seq 0 n).
Proof. apply fisher_yates_perm. Qed.

(** ** Indexing by a list of positions *)

Lemma safe_indexing_spec {A} (a : list A) (indices : list nat) (a' : list A) :
  safe_indexing a indices = Ok a' <-> map (nth_error a) indices = map Some a'.
Proof.
  unfold safe_indexing. revert a'; induction indices as [| i ix IH]; intro a'.
  - simpl. split; intro H0.
    + injection H0 as <-. reflexivity.
    + destruct a'; [reflexivity | discriminate].
  - cbn [rmap map]. unfold getitem at 1.
    destruct (nth_error a i) as [v |]; cbn [rbind].
    + destruct (rmap (getitem a) ix) as [vs | e]; cbn [rbind].
      * split; intro H0.
        -- injection H0 as <-. cbn [map]. f_equal. apply IH. reflexivity.
        -- destruct a' as [| v' a']; [discriminate |]. cbn [map] in H0.
           injection H0 as -> H0. apply IH in H0. injection H0 as ->. reflexivity.
      * split; intro H0; [discriminate |].
        destruct a' as [| v' a']; [discriminate |]. cbn [map] in H0.
        injection H0 as _ H0. apply IH in H0. discriminate.
    + split; intro H0; [discriminate |].
      destruct a'; discriminate.
Qed.

Lemma safe_indexing_total {A} (a : list A) (indices : list nat) :
  Forall (fun i => i < length a) indices -> exists a', safe_indexing a indices = Ok a'.
Proof.
  unfold safe_indexing. induction 1 as [| i ix Hi _ IH].
  - exists []. reflexivity.
  - destruct IH as [vs Hvs]. cbn [rmap]. unfold getitem at 1.
    destruct (nth_error a i) as [v |] eqn:Hv.
    + exists (v :: vs). cbn [rbind]. rewrite Hvs. reflexivity.
    + apply nth_error_None in Hv. lia.
Qed.

Lemma map_nth_error_seq {A} (a : list A) :
  map (nth_error a) (seq 0 (length a)) = map Some a.
Proof.
  induction a as [| x a IH]; [reflexivity |].
  cbn [length seq map nth_error]. f_equal.
  rewrite <- seq_shift, map_map. exact IH.
Qed.

Lemma map_Some_inj {A} (l l' : list A) : map Some l = map Some l' -> l = l'.
Proof.
  revert l'; induction l as [| x l IH]; intros [| y l'] H0; try discriminate.
  - reflexivity.
  - cbn [map] in H0. injection H0 as -> H0. f_equal. apply IH. exact H0.
Qed.

(** Indexing by a permutation of all positions permutes the list. *)
Lemma indexing_perm {A} (a a' : list A) (indices : list nat) :
  Permutation indices (seq 0 (length a)) ->
  map (nth_error a) indices = map Some a' ->
  Permutation a' a.
Proof.
  intros Hp Hix.
  apply (Permutation_map (nth_error a)) in Hp.
  rewrite Hix, map_nth_error_seq in Hp.
  apply Permutation_sym, Permutation_map_inv in Hp.
  destruct Hp as (l3 & E & Hp). apply map_Some_inj in E. subst l3.
  exact Hp.
Qed.

Lemma nth_error_combine {A B} (a : list A) (b : list B) (i : nat) :
  nth_error (combine a b) i
  = match nth_error a i, nth_error b i with
    | Some x, Some y => Some (x, y)
    | _, _ => None
    end.
Proof.
  revert b i; induction a as [| x a IH]; intros b i.
  - destruct i; reflexivity.
  - destruct b as [| y b].
    + destruct i as [| i]; simpl; [reflexivity |]. destruct (nth_error a i); reflexivity.
    + destruct i as [| i]; simpl; [reflexivity | apply IH].
Qed.

(** Indexing two lists by the same positions indexes their pairs. *)
Lemma indexing_combine {A B} (a a' : list A) (b b' : list B) (indices : list nat) :
  map (nth_error a) indices = map Some a' ->
  map (nth_error b) indices = map Some b' ->
  map (nth_error (combine a b)) indices = map Some (combine a' b').
Proof.
  revert a' b'; induction indices as [| i ix IH]; intros a' b' Ha Hb.
  - destruct a'; [reflexivity | discriminate].
  - destruct a' as [| x a']; [discriminate |]. destruct b' as [| y b']; [discriminate |].
    cbn [map combine] in *. injection Ha as Hx Ha. injection Hb as Hy Hb.
    rewrite nth_error_combine, Hx, Hy. f_equal. apply IH; assumption.
Qed.

Lemma map_Some_length {A} (f : nat -> option A) (indices : list nat) (a' : list A) :
  map f indices = map Some a' -> length a' = length indices.
Proof.
  intro H0. apply (f_equal (@length _)) in H0. rewrite !length_map in H0. lia.
Qed.

(** What [shuffle] does on three arrays of one length. *)
Lemma shuffle_run {A B C} (X : list A) (y : list B) (Id : list C) (w : world) :
  length X = length y -> length X = length Id ->
  exists indices X' y' Id' g,
    shuffle X y Id w
    = (Ok (X', y', Id'), {| sink := sink w; cv_log := cv_log w; rng := g |})
    /\ Permutation indices (seq 0 (length X))
    /\ map (nth_error X) indices = map Some X'
    /\ map (nth_error y) indices = map Some y'
    /\ map (nth_error Id) indices = map Some Id'.
Proof.
  intros Hy Hid. unfold shuffle.
  rewrite <- Hy, <- Hid, !Nat.eqb_refl. cbn [andb negb].
  pose proof (shuffled_indices_perm (length X) (rng w)) as Hp.
  destruct (shuffled_indices (length X) (rng w)) as [indices g]. cbn [fst] in Hp.
  assert (Hlt : forall n, n = length X -> Forall (fun i => i < n) indices).
  { intros n ->. apply Forall_forall. intros i Hi.
    apply (Permutation_in _ Hp), in_seq in Hi. lia. }
  destruct (safe_indexing_total X (Hlt _ eq_refl)) as [X' HX].
  destruct (safe_indexing_total y (Hlt _ (eq_sym Hy))) as [y' Hy'].
  destruct (safe_indexing_total Id (Hlt _ (eq_sym Hid))) as [Id' HId].
  exists indices, X', y', Id', g. rewrite HX, Hy', HId. cbn [rbind].
  split; [reflexivity |]. split; [exact Hp |].
  repeat split; apply safe_indexing_spec; assumption.
Qed.

(** ** Frames *)

Lemma length_rows_of {cell} (n : nat) (cols : list (list cell)) :
  length (rows_of n cols) = n.
Proof.
  revert cols; induction n as [| n IH]; intro cols; [reflexivity |].
  cbn [rows_of length]. rewrite IH. reflexivity.
Qed.

Lemma loc_tolist_in {cell} (df : DataFrame cell) (key : string) (y : list cell) :
  loc_tolist df key = Ok y -> In (key, y) (columns df).
Proof.
  unfold loc_tolist.
  destruct (filter (labelled key) (columns df)) as [| c [| c' l]] eqn:Hf; try discriminate.
  intro Hc. injection Hc as <-.
  assert (Hin : In c (filter (labelled key) (columns df))) by (rewrite Hf; left; reflexivity).
  apply filter_In in Hin. destruct Hin as [Hin Hk].
  unfold labelled in Hk. apply String.eqb_eq in Hk. subst key.
  destruct c; exact Hin.
Qed.

Lemma drop_present {cell} (df : DataFrame cell) (key : string) (y : list cell) :
  In (key, y) (columns df) ->
  drop df key
  = Ok {| index := index df;
          columns := filter (fun c => negb (labelled key c)) (columns df) |}.
Proof.
  intro Hin. unfold drop.
  replace (existsb (labelled key) (columns df)) with true; [reflexivity |].
  symmetry. apply existsb_exists. exists (key, y). split; [exact Hin |].
  unfold labelled. apply String.eqb_refl.
Qed.

(** C3: on a well-formed frame with one column "Tag", [getDatasetValues]
    returns; one permutation [indices] of the row positions indexes the
    feature rows, the labels and the ids alike, so the three results have
    one length, position [k] of each holds the row, label and id of the
    original position [indices[k]], the labels are a permutation of the
    original labels, and the (row, label, id) triples are a permutation of
    the original triples. *)
Theorem getDatasetValues_one_permutation {cell} (df : DataFrame cell)
    (y0 : list cell) (w : world) :
  well_formed df ->
  loc_tolist df "Tag" = Ok y0 ->
  exists df' indices X y Id w',
    drop df "Tag" = Ok df'
    /\ getDatasetValues df w = (Ok (X, y, Id), w')
    /\ Permutation indices (seq 0 (n_rows df))
    /\ map (nth_error (values df')) indices = map Some X
    /\ map (nth_error y0) indices = map Some y
    /\ map (nth_error (index df)) indices = map Some Id
    /\ length X = length y /\ length y = length Id
    /\ Permutation y y0
    /\ Permutation (combine X (combine y Id))
                   (combine (values df') (combine y0 (index df))).
Proof.
  intros Hwf Hy0.
  pose proof (loc_tolist_in _ _ Hy0) as Hin.
  pose proof (drop_present _ _ _ Hin) as Hdrop.
  set (df' := {| index := index df; columns := _ |}) in Hdrop.
  assert (HlenX : length (values df') = n_rows df) by apply length_rows_of.
  assert (Hleny : length y0 = n_rows df).
  { unfold well_formed in Hwf. rewrite Forall_forall in Hwf. apply (Hwf _ Hin). }
  assert (Hxy : length (values df') = length y0) by lia.
  assert (Hxi : length (values df') = length (index df')) by exact HlenX.
  destruct (shuffle_run (values df') y0 (index df') w Hxy Hxi)
    as (indices & X & y & Id & g & Hrun & Hp & HX & Hy & HId).
  exists df', indices, X, y, Id. eexists.
  split; [exact Hdrop |]. split.
  { unfold getDatasetValues, bind, lift. rewrite Hy0, Hdrop. exact Hrun. }
  rewrite HlenX in Hp.
  pose proof (map_Some_length _ _ _ HX) as LX.
  pose proof (map_Some_length _ _ _ Hy) as Ly.
  pose proof (map_Some_length _ _ _ HId) as LI.
  repeat split; try assumption; try lia.
  - apply (indexing_perm y0 y (indices := indices)); [rewrite Hleny; exact Hp | exact Hy].
  - apply (indexing_perm _ _ (indices := indices)).
    + rewrite !length_combine.
      replace (Nat.min (length (values df')) (Nat.min (length y0) (length (index df))))
        with (n_rows df); [exact Hp |].
      unfold n_rows in *. cbn [index] in *. lia.
    + apply indexing_combine; [exact HX |]. apply indexing_combine; assumption.
Qed.

Lemma getDatasetValues_one_permutation_witness :
  well_formed Sample.frame
  /\ loc_tolist Sample.frame "Tag" = Ok Sample.real6
  /\ exists df' indices X y Id w',
       drop Sample.frame "Tag" = Ok df'
       /\ getDatasetValues Sample.frame Sample.world0 = (Ok (X, y, Id), w')
       /\ Permutation indices (seq 0 (n_rows Sample.frame))
       /\ map (nth_error (values df')) indices = map Some X
       /\ map (nth_error Sample.real6) indices = map Some y
       /\ map (nth_error (index Sample.frame)) indices = map Some Id
       /\ length X = length y /\ length y = length Id
       /\ Permutation y Sample.real6
       /\ Permutation (combine X (combine y Id))
                      (combine (values df') (combine Sample.real6 (index Sample.frame))).
Proof.
  assert (Hwf : well_formed Sample.frame) by (repeat constructor).
  assert (Htag : loc_tolist Sample.frame "Tag" = Ok Sample.real6) by reflexivity.
  split; [exact Hwf |]. split; [exact Htag |].
  exact (@getDatasetValues_one_permutation string Sample.frame Sample.real6
           Sample.world0 Hwf Htag).
Defined.

(** ** Loops *)

Lemma rmap_raise {A B} (f : A -> result B) (l : list A) (e : exn) :
  rmap f l = Raise e -> exists x, In x l /\ f x = Raise e.
Proof.
  induction l as [| x l IH]; [discriminate |].
  cbn [rmap]. destruct (f x) as [b | e'] eqn:Hx; cbn [rbind].
  - destruct (rmap f l) as [bs | e'']; cbn [rbind]; [discriminate |].
    intro H0. injection H0 as ->. destruct (IH eq_refl) as (x' & Hin & Hx').
    exists x'. split; [right; exact Hin | exact Hx'].
  - intro H0. injection H0 as ->. exists x. split; [left; reflexivity | exact Hx].
Qed.

Lemma rmap_length {A B} (f : A -> result B) (l : list A) (l' : list B) :
  rmap f l = Ok l' -> length l' = length l.
Proof.
  revert l'; induction l as [| x l IH]; intro l'; cbn [rmap].
  - intro H0. injection H0 as <-. reflexivity.
  - destruct (f x) as [b | e]; cbn [rbind]; [| discriminate].
    destruct (rmap f l) as [bs | e]; cbn [rbind]; [| discriminate].
    intro H0. injection H0 as <-. cbn [length]. rewrite (IH bs eq_refl). reflexivity.
Qed.

Lemma for_append_raise {A B} (body : A -> M B) (l : list A) (e : exn) :
  forall w w', for_append l body w = (Raise e, w') ->
  exists x w0, In x l /\ fst (body x w0) = Raise e.
Proof.
  induction l as [| x l IH]; intros w w'; [discriminate |].
  cbn [for_append]. unfold bind at 1.
  destruct (body x w) as [[b | e'] w1] eqn:Hx.
  - unfold bind, ret. destruct (for_append l body w1) as [[bs | e''] w2] eqn:Hl;
      [discriminate |].
    intro H0. injection H0 as -> _. destruct (IH _ _ Hl) as (x' & w0 & Hin & Hx').
    exists x', w0. split; [right; exact Hin | exact Hx'].
  - intro H0. injection H0 as -> _. exists x, w. rewrite Hx. split; [left |]; reflexivity.
Qed.

(** ** Cross-validated prediction *)

Lemma for_append_length {A B} (body : A -> M B) (l : list A) :
  forall (w w' : world) (bs : list B),
  for_append l body w = (Ok bs, w') -> length bs = length l.
Proof.
  induction l as [| x l IH]; intros w w' bs; cbn [for_append].
  - unfold ret. intro Hr. injection Hr as <- _. reflexivity.
  - unfold bind at 1. destruct (body x w) as [[b | e] w1]; [| discriminate].
    unfold bind, ret. destruct (for_append l body w1) as [[bs' | e] w2] eqn:Hl;
      [| discriminate].
    intro Hr. injection Hr as <- _. cbn [length]. rewrite (IH _ _ _ Hl). reflexivity.
Qed.

(** A loop whose body leaves output and record alone does so too. *)
Lemma for_append_frame {A B} (body : A -> M B) (l : list A) :
  (forall x w, sink (snd (body x w)) = sink w /\ cv_log (snd (body x w)) = cv_log w) ->
  forall w, sink (snd (for_append l body w)) = sink w
            /\ cv_log (snd (for_append l body w)) = cv_log w.
Proof.
  intro Hbody. induction l as [| x l IH]; intro w; cbn [for_append]; [split; reflexivity |].
  unfold bind, ret. destruct (Hbody x w) as [Hs Hc].
  destruct (body x w) as [[b | e] w1]; cbn [snd] in Hs, Hc; cbn beta iota;
    [| cbn [snd]; split; assumption].
  destruct (IH w1) as [Hs1 Hc1].
  destruct (for_append l body w1) as [[bs | e] w2]; cbn [snd] in *; split; congruence.
Qed.

Lemma fit_fold_frame `{Library} (clf : classifier) (X : list row) (y : list label)
    (folds : list nat) (k : nat) (w : world) :
  sink (snd (fit_fold clf X y folds k w)) = sink w
  /\ cv_log (snd (fit_fold clf X y folds k w)) = cv_log w.
Proof.
  unfold fit_fold. destruct (fit clf _ _ (rng w)) as [[predict | msg] g]; split; reflexivity.
Qed.

Lemma fit_fold_raise `{Library} (clf : classifier) (X : list row) (y : list label)
    (folds : list nat) (k : nat) (w : world) (e : exn) :
  fst (fit_fold clf X y folds k w) = Raise e ->
  exists msg, e = ValueError (EstimatorFailure msg).
Proof.
  unfold fit_fold. destruct (fit clf _ _ (rng w)) as [[predict | msg] g]; cbn [fst];
    [discriminate |].
  intro Hr. injection Hr as <-. exists msg. reflexivity.
Qed.

(** Every sample whose fold has a model is predicted. *)
Lemma predict_samples_ok (models : list (row -> label)) (xs : list (row * nat)) :
  Forall (fun xk => snd xk < length models) xs ->
  exists ps, rmap (predict_sample models) xs = Ok ps.
Proof.
  induction 1 as [| xk xs Hk _ IH]; [exists []; reflexivity |].
  destruct IH as (ps & Hps). cbn [rmap]. rewrite Hps. unfold predict_sample, getitem.
  destruct (nth_error models (snd xk)) as [m |] eqn:Hm.
  - eexists. reflexivity.
  - apply nth_error_None in Hm. lia.
Qed.

(** Once the split is accepted, only the training of a model can fail
    (or a library whose folds are no partition). *)
Lemma predict_folds_run `{Library} (clf : classifier) (X : list row)
    (y : list label) (cv : nat) (w w' : world) (r : result (list label)) :
  predict_folds clf X y cv w = (r, w') ->
  sink w' = sink w /\ cv_log w' = cv_log w
  /\ match r with
     | Ok ps => length ps = length X
     | Raise e => e = ValueError NotAPartition
                  \/ exists msg, e = ValueError (EstimatorFailure msg)
     end.
Proof.
  unfold predict_folds. set (folds := make_test_folds y cv).
  destruct (negb _) eqn:E.
  - unfold raise. intro Hr. injection Hr as <- <-.
    split; [reflexivity |]. split; [reflexivity | left; reflexivity].
  - apply negb_false_iff, andb_true_iff in E. destruct E as [Elen Efolds].
    apply Nat.eqb_eq in Elen. rewrite forallb_forall in Efolds.
    unfold bind, lift.
    destruct (for_append_frame (fit_fold clf X y folds) (seq 0 cv)
                (fit_fold_frame clf X y folds) w) as [Hs Hc].
    destruct (for_append (seq 0 cv) (fit_fold clf X y folds) w) as [[models | e] w1] eqn:Hm;
      cbn [snd] in Hs, Hc.
    + intro Hr. injection Hr as <- <-. split; [exact Hs |]. split; [exact Hc |].
      apply for_append_length in Hm. rewrite length_seq in Hm.
      destruct (@predict_samples_ok models (combine X folds)) as (ps & Hps).
      { apply Forall_forall. intros [x k] Hin. cbn [snd]. rewrite Hm.
        apply in_combine_r in Hin. apply Nat.ltb_lt, Efolds. exact Hin. }
      rewrite Hps. apply rmap_length in Hps. rewrite Hps, length_combine. lia.
    + intro Hr. injection Hr as <- <-. split; [exact Hs |]. split; [exact Hc |].
      right. apply for_append_raise in Hm. destruct Hm as (k & w0 & _ & Hk).
      eapply fit_fold_raise. exact Hk.
Qed.

Lemma cross_val_predict_run `{Library} (clf : classifier) (X : list row)
    (y : list label) (cv : nat) (w : world) :
  cross_val_predict clf X y cv w
  = let w1 := {| sink := sink w; cv_log := cv_log w ++ [length X]; rng := rng w |} in
    if negb (length X =? length y) then (Raise (ValueError InconsistentSamples), w1)
    else if length y =? 0 then (Raise (ValueError NoSample), w1)
    else if length X <? cv then (Raise (ValueError (SplitsGtSamples cv (length X))), w1)
    else if every_class_below cv y then (Raise (ValueError (SplitsGtMembers cv)), w1)
    else predict_folds clf X y cv w1.
Proof.
  unfold cross_val_predict, stratified_predict, bind, log_cv, raise. cbn zeta.
  destruct (negb (length X =? length y)); [reflexivity |].
  destruct (length y =? 0); [reflexivity |].
  destruct (length X <? cv); [reflexivity |].
  destruct (every_class_below cv y); reflexivity.
Qed.

(** A call of [cross_val_predict] writes nothing, records its slice, and
    returns one prediction per sample when it returns. *)
Lemma cross_val_predict_frame `{Library} (clf : classifier) (X : list row)
    (y : list label) (cv : nat) (w w' : world) (r : result (list label)) :
  cross_val_predict clf X y cv w = (r, w') ->
  sink w' = sink w /\ cv_log w' = cv_log w ++ [length X]
  /\ forall p, r = Ok p -> length p = length X.
Proof.
  rewrite cross_val_predict_run. cbn zeta.
  destruct (negb (length X =? length y));
    [intro Hr; injection Hr as <- <-; repeat split; discriminate |].
  destruct (length y =? 0);
    [intro Hr; injection Hr as <- <-; repeat split; discriminate |].
  destruct (length X <? cv);
    [intro Hr; injection Hr as <- <-; repeat split; discriminate |].
  destruct (every_class_below cv y);
    [intro Hr; injection Hr as <- <-; repeat split; discriminate |].
  intro Hr. apply predict_folds_run in Hr. destruct Hr as (Hs & Hc & Hr).
  cbn [sink cv_log] in Hs, Hc. split; [exact Hs |]. split; [exact Hc |].
  intros p ->. exact Hr.
Qed.

(** What a call with five folds does to a slice of features and labels of
    one length: it returns only for a slice of at least 5 records with a
    class of at least 5, and otherwise refuses the slice, or fails in the
    training of a fold. *)
Lemma cross_val_predict_outcome `{Library} (clf : classifier) (X : list row)
    (y : list label) (w w' : world) (r : result (list label)) :
  length X = length y ->
  cross_val_predict clf X y 5 w = (r, w') ->
  match r with
  | Ok p => 5 <= length y /\ every_class_below 5 y = false
  | Raise e =>
      (length y = 0 /\ e = ValueError NoSample)
      \/ (0 < length y < 5 /\ e = ValueError (SplitsGtSamples 5 (length y)))
      \/ (5 <= length y /\ every_class_below 5 y = true
          /\ e = ValueError (SplitsGtMembers 5))
      \/ (5 <= length y /\ every_class_below 5 y = false
          /\ (e = ValueError NotAPartition
              \/ exists msg, e = ValueError (EstimatorFailure msg)))
  end.
Proof.
  intro Hlen. rewrite cross_val_predict_run. cbn zeta.
  rewrite Hlen, Nat.eqb_refl. cbn [negb].
  destruct (Nat.eqb_spec (length y) 0) as [E0 | E0].
  { intro Hr. injection Hr as <- _. left. split; [exact E0 | reflexivity]. }
  destruct (Nat.ltb_spec (length y) 5) as [E5 | E5].
  { intro Hr. injection Hr as <- _. right; left. split; [lia | reflexivity]. }
  destruct (every_class_below 5 y) eqn:Ecls.
  { intro Hr. injection Hr as <- _. right; right; left. repeat split; assumption. }
  intro Hr. apply predict_folds_run in Hr. destruct Hr as (_ & _ & Hr).
  destruct r as [p | e]; [split; [exact E5 | reflexivity] |].
  right; right; right. repeat split; assumption.
Qed.

Lemma length_take {A B} (val : Z) (X : list A) (y : list B) :
  length X = length y -> length (take val X) = length (take val y).
Proof.
  intro Hlen. unfold take. destruct (0 <=? val)%Z; rewrite !length_firstn, Hlen; reflexivity.
Qed.

(** The loop of the evaluator, slice by slice: it stops at the first slice
    on which the call raises; the slices before it were predicted. *)
Lemma evaluator_steps `{Library} (clf : classifier) (X : list row) (y : list label)
    (s : list Z) :
  length X = length y ->
  forall (w w' : world) (r : result (list (list label))),
  for_append s (fun val => cross_val_predict clf (take val X) (take val y) 5) w = (r, w') ->
  exists done rest,
    s = done ++ rest
    /\ cv_log w' = cv_log w ++ map (fun val => length (take val y)) done
    /\ match r with
       | Ok _ =>
           rest = []
           /\ Forall (fun val => 5 <= length (take val y)
                                 /\ every_class_below 5 (take val y) = false) done
       | Raise e =>
           exists before val,
             done = before ++ [val]
             /\ Forall (fun v => 5 <= length (take v y)
                                 /\ every_class_below 5 (take v y) = false) before
             /\ ((length (take val y) = 0 /\ e = ValueError NoSample)
                 \/ (0 < length (take val y) < 5
                     /\ e = ValueError (SplitsGtSamples 5 (length (take val y))))
                 \/ (5 <= length (take val y) /\ every_class_below 5 (take val y) = true
                     /\ e = ValueError (SplitsGtMembers 5))
                 \/ (5 <= length (take val y) /\ every_class_below 5 (take val y) = false
                     /\ (e = ValueError NotAPartition
                         \/ exists msg, e = ValueError (EstimatorFailure msg))))
       end.
Proof.
  intro Hlen. induction s as [| val s IH]; intros w w' r.
  - cbn [for_append]. unfold ret. intro Hr. injection Hr as <- <-.
    exists [], []. split; [reflexivity |].
    split; [cbn [map]; rewrite app_nil_r; reflexivity |].
    split; [reflexivity | constructor].
  - cbn [for_append]. unfold bind at 1.
    destruct (cross_val_predict clf (take val X) (take val y) 5 w) as [[p | e] w1] eqn:Hcv.
    + pose proof (@cross_val_predict_outcome _ _ _ _ _ _ _ (length_take val X y Hlen) Hcv) as Hout.
      apply cross_val_predict_frame in Hcv. destruct Hcv as (_ & Hlog & _).
      rewrite (length_take val X y Hlen) in Hlog.
      unfold bind, ret.
      destruct (for_append s _ w1) as [[ps | e] w2] eqn:Hloop; intro Hr;
        injection Hr as <- <-; specialize (IH _ _ _ Hloop); cbn beta iota in IH;
        destruct IH as (done & rest & Hsplit & Hlog2 & IH).
      * destruct IH as [-> Hall]. exists (val :: done), [].
        split; [rewrite Hsplit; reflexivity |].
        split; [rewrite Hlog2, Hlog; cbn [map]; rewrite <- app_assoc; reflexivity |].
        split; [reflexivity | constructor; assumption].
      * destruct IH as (before & v & -> & Hall & Hcase).
        exists (val :: before ++ [v]), rest.
        split; [rewrite Hsplit; reflexivity |].
        split; [rewrite Hlog2, Hlog; cbn [map]; rewrite <- app_assoc; reflexivity |].
        exists (val :: before), v.
        split; [reflexivity |]. split; [constructor; assumption | exact Hcase].
    + pose proof (@cross_val_predict_outcome _ _ _ _ _ _ _ (length_take val X y Hlen) Hcv) as Hout.
      apply cross_val_predict_frame in Hcv. destruct Hcv as (_ & Hlog & _).
      rewrite (length_take val X y Hlen) in Hlog.
      intro Hr. injection Hr as <- <-.
      exists [val], s. split; [reflexivity |]. split; [exact Hlog |].
      exists [], val. split; [reflexivity |]. split; [constructor | exact Hout].
Qed.

(** C6, as stated, fails on a slice of eight records, four of each class:
    the slice is not smaller than the five folds, and still it is not
    predicted: the stratified split refuses it, before any model is
    trained (the generator is as it was). *)
Lemma two_small_classes_counterexample :
  let y := Sample.real8 in
  let X := map (fun g => [g]) y in
  slice_sizes 1 (length y) = Ok [8%Z]
  /\ 5 <= length (take 8 y)
  /\ predictAndEvaluate (H := Sample.library) LinearSVC X y 1 Sample.world0
     = (Raise (ValueError (SplitsGtMembers 5)),
        {| sink := sink Sample.world0; cv_log := [8]; rng := rng Sample.world0 |}).
Proof.
  split; [vm_compute; reflexivity |]. split; [simpl; lia | vm_compute; reflexivity].
Qed.

(** C6 (as amended): on features and labels of one length, the evaluator
    hands its slices to [cross_val_predict(.., cv=5)] in order and stops at
    the first one that raises.  On that slice the error is one of too few
    records (no sample, or more folds than samples) exactly when the slice
    has fewer than 5 records: the error of an array with no sample for an
    empty slice, that of more splits than samples for 1 to 4 records.  A
    slice of at least 5 records in which no class has 5 members is refused
    too, by the stratified split; only a slice with a class of at least 5
    members has its folds trained, and then nothing but the training can
    fail.  Every slice before the one that raised, and every slice of a
    run that returned, had at least 5 records and a class of at least 5. *)
Theorem insufficient_data_iff `{Library} (clf : classifier) (X : list row)
    (y : list label) (lc : Z) (sizes : list Z) (w w' : world)
    (r : result (list (list label))) :
  length X = length y ->
  slice_sizes lc (length y) = Ok sizes ->
  predictAndEvaluate clf X y lc w = (r, w') ->
  exists done rest,
    sizes = done ++ rest
    /\ cv_log w' = cv_log w ++ map (fun val => length (take val y)) done
    /\ match r with
       | Ok _ =>
           rest = []
           /\ Forall (fun val => 5 <= length (take val y)
                                 /\ every_class_below 5 (take val y) = false) done
       | Raise e =>
           exists before val,
             done = before ++ [val]
             /\ Forall (fun v => 5 <= length (take v y)
                                 /\ every_class_below 5 (take v y) = false) before
             /\ (insufficient_data e = true <-> length (take val y) < 5)
             /\ (length (take val y) = 0 -> e = ValueError NoSample)
             /\ (0 < length (take val y) < 5 ->
                 e = ValueError (SplitsGtSamples 5 (length (take val y))))
             /\ (5 <= length (take val y) -> every_class_below 5 (take val y) = true ->
                 e = ValueError (SplitsGtMembers 5))
             /\ (5 <= length (take val y) -> every_class_below 5 (take val y) = false ->
                 e = ValueError NotAPartition
                 \/ exists msg, e = ValueError (EstimatorFailure msg))
       end.
Proof.
  intros Hlen Hs Hrun. unfold predictAndEvaluate, bind, lift in Hrun. rewrite Hs in Hrun.
  destruct (@evaluator_steps _ clf X y sizes Hlen w w' r Hrun)
    as (done & rest & Hsplit & Hlog & Hr).
  exists done, rest. split; [exact Hsplit |]. split; [exact Hlog |].
  destruct r as [predicts | e]; [exact Hr |].
  destruct Hr as (before & val & Hdone & Hall & Hcase).
  exists before, val. split; [exact Hdone |]. split; [exact Hall |].
  destruct Hcase as [[H0 ->] | [[H1 ->] | [(H5 & Hc & ->) | (H5 & Hc & [-> | (msg & ->)])]]];
    cbn [insufficient_data];
    (split; [split; intro; try reflexivity; try discriminate; lia |]);
    repeat split; intros; try reflexivity; try lia; try congruence;
    try (left; reflexivity); try (right; eexists; reflexivity).
Qed.

Lemma insufficient_data_iff_witness :
  let X := map (fun g => [g]) Sample.guess6 in
  let y := Sample.real6 in
  let run := predictAndEvaluate (H := Sample.library) LinearSVC X y 2 Sample.world0 in
  length X = length y
  /\ slice_sizes 2 (length y) = Ok [3; 6]%Z
  /\ run = (Raise (ValueError (SplitsGtSamples 5 3)), snd run)
  /\ cv_log (snd run) = [3]
  /\ exists done rest,
       [3; 6]%Z = done ++ rest
       /\ cv_log (snd run)
          = cv_log Sample.world0 ++ map (fun val => length (take val y)) done
       /\ exists before val,
            done = before ++ [val]
            /\ Forall (fun v => 5 <= length (take v y)
                                /\ every_class_below 5 (take v y) = false) before
            /\ (insufficient_data (ValueError (SplitsGtSamples 5 3)) = true
                <-> length (take val y) < 5)
            /\ (length (take val y) = 0 -> ValueError (SplitsGtSamples 5 3) = ValueError NoSample)
            /\ (0 < length (take val y) < 5 ->
                ValueError (SplitsGtSamples 5 3)
                = ValueError (SplitsGtSamples 5 (length (take val y))))
            /\ (5 <= length (take val y) -> every_class_below 5 (take val y) = true ->
                ValueError (SplitsGtSamples 5 3) = ValueError (SplitsGtMembers 5))
            /\ (5 <= length (take val y) -> every_class_below 5 (take val y) = false ->
                ValueError (SplitsGtSamples 5 3) = ValueError NotAPartition
                \/ exists msg, ValueError (SplitsGtSamples 5 3)
                               = ValueError (EstimatorFailure msg)).
Proof.
  intros X y run.
  assert (Hlen : length X = length y) by reflexivity.
  assert (Hs : slice_sizes 2 (length y) = Ok [3; 6]%Z) by (vm_compute; reflexivity).
  assert (Hrun : run = (Raise (ValueError (SplitsGtSamples 5 3)), snd run))
    by (vm_compute; reflexivity).
  split; [exact Hlen |]. split; [exact Hs |]. split; [exact Hrun |].
  split; [vm_compute; reflexivity |].
  exact (@insufficient_data_iff Sample.library LinearSVC X y 2 [3; 6]%Z Sample.world0
           (snd run) (Raise (ValueError (SplitsGtSamples 5 3))) Hlen Hs Hrun).
Defined.

(** C1 (the code at [lc = -1]): [linspace(0, 1, 0)] has no point, so the
    evaluator cross-validates no slice and returns the empty list, for every
    classifier and data; [printResults] on that list raises [IndexError] at
    [predicts[-1]]. *)
Theorem no_curve_gives_no_slice `{Library} (clf : classifier) (X : list row)
    (y : list label) (w : world) :
  predictAndEvaluate clf X y (-1) w = (Ok [], w)
  /\ fst (printResults (class_name clf) y [] w) = Raise IndexError.
Proof. split; reflexivity. Qed.

(** C9 (the code at [-c svc]): "svc" is one of the choices, and selecting it
    evaluates the three default classifiers, none of which is an SVC. *)
Theorem svc_selects_every_classifier (file : string) (files : list string)
    (jobs lc : option Z) (v d : bool) :
  In "svc" (choices prepareArgParser)
  /\ exists fl,
       parseArguments {| argv_files := file :: files; argv_n_jobs := jobs;
                         argv_verbose := v; argv_debug := d; argv_lc := lc;
                         argv_classifier := Some "svc" |}
       = Ok (file :: files, fl, [LinearSVC; MultinomialNB; RandomForestClassifier]).
Proof. split; [left; reflexivity | eexists; reflexivity]. Qed.

(** The other selections: one classifier of the kind named, the three
    default ones for "all" and when [-c] is absent. *)
Lemma select_classifiers_cases :
  select_classifiers (Some "linearsvc") = [LinearSVC]
  /\ select_classifiers (Some "naive_bayes") = [MultinomialNB]
  /\ select_classifiers (Some "randomforest") = [RandomForestClassifier]
  /\ select_classifiers (Some "mlp") = [MLPClassifier]
  /\ select_classifiers (Some "all") = [LinearSVC; MultinomialNB; RandomForestClassifier]
  /\ select_classifiers None = [LinearSVC; MultinomialNB; RandomForestClassifier].
Proof. repeat split. Qed.

(** ** The misclassified records *)

Lemma getlast_last {A} (l : list A) (d : A) : l <> [] -> getlast l = Ok (last l d).
Proof.
  intro Hl. unfold getlast, getitem. destruct l as [| a l]; [congruence |].
  clear Hl. revert a; induction l as [| b l IH]; intro a; [reflexivity |].
  specialize (IH b). cbn [length] in *.
  replace (S (S (length l)) - 1) with (S (S (length l) - 1)) by lia.
  cbn [nth_error]. exact IH.
Qed.

Lemma missed_at_body (Ids : list string) (y final : list label)
    (predicts : list (list label)) (i : nat) :
  getlast predicts = Ok final ->
  missed_at Ids y predicts i = missed_body Ids y final i.
Proof.
  intro Hl. unfold missed_at, missed_body. rewrite Hl. cbn [rbind].
  destruct (getitem final i) as [p |]; [| reflexivity]. cbn [rbind].
  destruct (getitem y i) as [t |]; [| reflexivity]. cbn [rbind].
  destruct (negb (String.eqb p t)); [| reflexivity].
  destruct (getitem Ids i); reflexivity.
Qed.

Lemma missed_body_rows (y : list label) :
  forall (Ids : list string) (final : list label) (rows : list (list string)),
  length Ids = length y ->
  rmap (missed_body Ids y final) (seq 0 (length y)) = Ok rows ->
  concat rows = missed_list Ids y final.
Proof.
  induction y as [| t y IH]; intros Ids final rows Hlen.
  - simpl. intro Hr. injection Hr as <-. destruct Ids; [reflexivity | discriminate].
  - destruct Ids as [| id Ids]; [discriminate |].
    cbn [length seq rmap]. rewrite rmap_seq_shift.
    destruct final as [| p final]; [discriminate |].
    unfold missed_body at 1. cbn [getitem nth_error rbind].
    change (rmap (fun i => missed_body (id :: Ids) (t :: y) (p :: final) (S i)))
      with (rmap (missed_body Ids y final)).
    destruct (rmap (missed_body Ids y final) (seq 0 (length y))) as [rs |] eqn:Hrs.
    + specialize (IH Ids final rs (eq_add_S _ _ Hlen) Hrs).
      unfold missed_list. cbn [combine filter]. unfold mispredicted at 1. cbn [fst snd].
      destruct (negb (String.eqb p t)); cbn [rbind]; intro Hr; injection Hr as <-;
        cbn [concat map app]; rewrite IH; reflexivity.
    + destruct (negb (String.eqb p t)); discriminate.
Qed.

Lemma missed_records_ok (Ids : list string) (y : list label)
    (predicts : list (list label)) (missed : list string) :
  length Ids = length y ->
  missed_records Ids y predicts = Ok missed ->
  missed = missed_list Ids y (last predicts []).
Proof.
  intros Hlen. unfold missed_records.
  destruct (rmap (missed_at Ids y predicts) (seq 0 (length y))) as [rows |] eqn:Hr;
    [| discriminate].
  cbn [rbind]. intro Hm. injection Hm as <-.
  destruct predicts as [| ps predicts].
  - destruct y as [| t y].
    + injection Hr as <-. destruct Ids; [reflexivity | discriminate].
    + discriminate.
  - apply missed_body_rows; [exact Hlen |]. rewrite <- Hr.
    clear Hr. generalize (seq 0 (length y)). intro l.
    induction l as [| i l IHl]; [reflexivity |]. cbn [rmap].
    rewrite IHl. f_equal. symmetry. apply missed_at_body, getlast_last. discriminate.
Qed.

Lemma missed_list_perfect (Ids : list string) (y : list label) : missed_list Ids y y = [].
Proof.
  unfold missed_list. revert Ids; induction y as [| t y IH]; intro Ids.
  - destruct Ids; reflexivity.
  - destruct Ids as [| id Ids]; [reflexivity |].
    cbn [combine filter]. unfold mispredicted at 1. cbn [fst snd].
    rewrite String.eqb_refl. cbn [negb]. apply IH.
Qed.

Lemma shuffle_lengths {A B C} (X : list A) (y : list B) (Id : list C) (w w' : world)
    (X' : list A) (y' : list B) (Id' : list C) :
  shuffle X y Id w = (Ok (X', y', Id'), w') ->
  length X' = length y' /\ length y' = length Id'.
Proof.
  unfold shuffle. destruct (negb _); [discriminate |].
  destruct (shuffled_indices (length X) (rng w)) as [indices g].
  destruct (safe_indexing X indices) as [X1 |] eqn:HX; [| discriminate].
  destruct (safe_indexing y indices) as [y1 |] eqn:Hy; [| discriminate].
  destruct (safe_indexing Id indices) as [Id1 |] eqn:HId; [| discriminate].
  cbn [rbind]. intro Hr. injection Hr as <- <- <- _.
  apply rmap_length in HX, Hy, HId. lia.
Qed.

Lemma getDatasetValues_lengths {cell} (df : DataFrame cell) (w w' : world)
    (X : list (list cell)) (y : list cell) (Ids : list string) :
  getDatasetValues df w = (Ok (X, y, Ids), w') ->
  length X = length y /\ length y = length Ids.
Proof.
  unfold getDatasetValues, bind, lift.
  destruct (loc_tolist df "Tag"); [| discriminate].
  destruct (drop df "Tag"); [| discriminate].
  apply shuffle_lengths.
Qed.

(** C5 (the code): when the body of the dataset loop returns, the last two
    writes are the separator line and the misclassified records: with
    [final] the last prediction sequence kept by the loop over the
    classifiers, one entry "<id> Classified as <predicted label>" for each
    position at which [final] differs from the true label, in order; no
    entry when [final] equals the true labels.  Every entry is built with
    its own newline, and [print( *missed)] then separates the entries by one
    space and ends them by one more newline: each record after the first
    is written with a space before its id, and a blank line follows the
    records (it is all that is written when there is none). *)
Theorem missed_records_written `{Library}
    (read_csv : string -> result (DataFrame string)) (fl : flags)
    (classifiers : list classifier) (dataset_filename : string) (w w' : world) :
  run_dataset read_csv fl classifiers dataset_filename w = (Ok tt, w') ->
  exists df X y Ids w1 predicts w2,
    read_csv dataset_filename = Ok df
    /\ getDatasetValues df (emit w [("Dataset: " ++ dataset_filename ++ nl)%string])
       = (Ok (X, y, Ids), w1)
    /\ evaluate_all classifiers X y fl [] w1 = (Ok predicts, w2)
    /\ let final := last predicts [] in
       let missed :=
         map (fun r => (fst r ++ " Classified as " ++ snd (snd r) ++ nl)%string)
             (filter (fun r => negb (String.eqb (snd (snd r)) (fst (snd r))))
                     (combine Ids (combine y final))) in
       sink w' = sink w2 ++ [("==============" ++ nl)%string; (join " " missed ++ nl)%string]
       /\ (final = y -> missed = []).
Proof.
  unfold run_dataset, bind, lift, print.
  change (join " " ["Dataset:"; dataset_filename] ++ nl)%string
    with ("Dataset: " ++ dataset_filename ++ nl)%string.
  destruct (read_csv dataset_filename) as [df |]; [| discriminate].
  destruct (getDatasetValues df _) as [[[[X y] Ids] |] w1] eqn:Hd; [| discriminate].
  destruct (evaluate_all classifiers X y fl [] w1) as [[predicts |] w2] eqn:He;
    [| discriminate].
  destruct (missed_records Ids y predicts) as [missed |] eqn:Hm; [| discriminate].
  intro Hr. injection Hr as <-.
  exists df, X, y, Ids, w1, predicts, w2.
  split; [reflexivity |]. split; [exact Hd |]. split; [exact He |].
  apply getDatasetValues_lengths in Hd. destruct Hd as [_ Hlen].
  apply missed_records_ok in Hm; [| symmetry; exact Hlen]. subst missed.
  cbn zeta. split.
  - rewrite !sink_emit, <- app_assoc. reflexivity.
  - intros ->. apply missed_list_perfect.
Qed.

Lemma missed_records_written_witness :
  let read_csv := fun _ : string => Ok Sample.frame_two_misses in
  let run := run_dataset (H := Sample.library) read_csv Sample.flags1 [LinearSVC]
               "news.csv" Sample.world0 in
  run = (Ok tt, snd run)
  /\ last (sink (snd run)) EmptyString
     = ("n2 Classified as FAKE" ++ nl ++ " n5 Classified as FAKE" ++ nl ++ nl)%string
  /\ exists df X y Ids w1 predicts w2,
       read_csv "news.csv" = Ok df
       /\ getDatasetValues df (emit Sample.world0 [("Dataset: " ++ "news.csv" ++ nl)%string])
          = (Ok (X, y, Ids), w1)
       /\ evaluate_all (H := Sample.library) [LinearSVC] X y Sample.flags1 [] w1
          = (Ok predicts, w2)
       /\ let final := last predicts [] in
          let missed :=
            map (fun r => (fst r ++ " Classified as " ++ snd (snd r) ++ nl)%string)
                (filter (fun r => negb (String.eqb (snd (snd r)) (fst (snd r))))
                        (combine Ids (combine y final))) in
          sink (snd run)
          = sink w2 ++ [("==============" ++ nl)%string; (join " " missed ++ nl)%string]
          /\ (final = y -> missed = []).
Proof.
  intros read_csv run.
  assert (Hrun : run = (Ok tt, snd run)) by (vm_compute; reflexivity).
  split; [exact Hrun |]. split; [vm_compute; reflexivity |].
  exact (@missed_records_written Sample.library read_csv Sample.flags1 [LinearSVC]
           "news.csv" Sample.world0 (snd run) Hrun).
Defined.

(** C8: on a frame with no column "Tag", [getDatasetValues] raises
    [KeyError] and changes nothing; the body of the dataset loop then stops
    with that error after the "Dataset:" line, with no slice handed to
    cross-validation, and so does [main] when the frame is that of its first
    file. *)
Theorem missing_tag_column `{Library} (df : DataFrame string) (w : world) :
  (forall c, In c (columns df) -> fst c <> "Tag") ->
  getDatasetValues df w = (Raise (KeyError "Tag"), w)
  /\ (forall read_csv fl classifiers dataset_filename,
        read_csv dataset_filename = Ok df ->
        run_dataset read_csv fl classifiers dataset_filename w
        = (Raise (KeyError "Tag"), emit w [("Dataset: " ++ dataset_filename ++ nl)%string])
        /\ cv_log (snd (run_dataset read_csv fl classifiers dataset_filename w))
           = cv_log w)
  /\ (forall read_csv a file files fl classifiers,
        parseArguments a = Ok (file :: files, fl, classifiers) ->
        read_csv file = Ok df ->
        fst (main read_csv a w) = Raise (KeyError "Tag")
        /\ cv_log (snd (main read_csv a w)) = cv_log w).
Proof.
  intro Habs.
  assert (Hloc : loc_tolist df "Tag" = Raise (KeyError "Tag")).
  { unfold loc_tolist.
    replace (filter (labelled "Tag") (columns df)) with (@nil (string * list string));
      [reflexivity |].
    symmetry. induction (columns df) as [| c l IH]; [reflexivity |].
    cbn [filter]. unfold labelled at 1.
    destruct (String.eqb_spec (fst c) "Tag") as [E | _].
    - exfalso. apply (Habs c); [left; reflexivity | exact E].
    - apply IH. intros c' Hc'. apply Habs. right. exact Hc'. }
  assert (Hget : forall w0, getDatasetValues df w0 = (Raise (KeyError "Tag"), w0)).
  { intro w0. unfold getDatasetValues, bind, lift. rewrite Hloc. reflexivity. }
  assert (Hrun : forall read_csv fl classifiers dataset_filename,
            read_csv dataset_filename = Ok df ->
            run_dataset read_csv fl classifiers dataset_filename w
            = (Raise (KeyError "Tag"),
               emit w [("Dataset: " ++ dataset_filename ++ nl)%string])).
  { intros read_csv fl classifiers dataset_filename Hread.
    unfold run_dataset, bind, lift, print. rewrite Hread, Hget. reflexivity. }
  split; [apply Hget |]. split.
  - intros read_csv fl classifiers dataset_filename Hread.
    rewrite (Hrun _ fl classifiers _ Hread). split; reflexivity.
  - intros read_csv a file files fl classifiers Hparse Hread.
    unfold main, bind, lift. rewrite Hparse. cbn [for_each]. unfold bind.
    rewrite (Hrun _ fl classifiers _ Hread). split; reflexivity.
Qed.

Lemma missing_tag_column_witness :
  (forall c, In c (columns Sample.frame_without_tag) -> fst c <> "Tag")
  /\ getDatasetValues Sample.frame_without_tag Sample.world0
     = (Raise (KeyError "Tag"), Sample.world0)
  /\ cv_log (snd (run_dataset (H := Sample.library)
                    (fun _ => Ok Sample.frame_without_tag) Sample.flags1
                    [LinearSVC] "news.csv" Sample.world0))
     = cv_log Sample.world0.
Proof.
  assert (Habs : forall c, In c (columns Sample.frame_without_tag) -> fst c <> "Tag")
    by (intros c [<- | []]; discriminate).
  pose proof (@missing_tag_column Sample.library Sample.frame_without_tag
                Sample.world0 Habs) as (Hget & Hrun & _).
  split; [exact Habs |]. split; [exact Hget |].
  exact (proj2 (Hrun (fun _ => Ok Sample.frame_without_tag) Sample.flags1
                  [LinearSVC] "news.csv" eq_refl)).
Defined.

(** * Further properties of the script *)

(** ** The command line *)

(** X2: whatever [-c] holds, the selection is never empty and never holds a
    classifier twice, and the neural network is in it exactly for [-c mlp]. *)
Theorem selection_invariants (c : option string) :
  select_classifiers c <> []
  /\ NoDup (select_classifiers c)
  /\ (In MLPClassifier (select_classifiers c) <-> c = Some "mlp").
Proof.
  assert (H3 : NoDup [LinearSVC; MultinomialNB; RandomForestClassifier]).
  { repeat constructor; simpl; intuition discriminate. }
  assert (H1 : forall k : classifier, NoDup [k]) by (intro k; repeat constructor; simpl; tauto).
  unfold select_classifiers, is_choice. destruct c as [s |].
  - destruct (String.eqb_spec s "linearsvc") as [-> | N1].
    { cbn [nth]. split; [discriminate |]. split; [apply H1 |].
      simpl. split; [intuition discriminate | discriminate]. }
    destruct (String.eqb_spec s "naive_bayes") as [-> | N2].
    { cbn [nth]. split; [discriminate |]. split; [apply H1 |].
      simpl. split; [intuition discriminate | discriminate]. }
    destruct (String.eqb_spec s "randomforest") as [-> | N3].
    { cbn [nth]. split; [discriminate |]. split; [apply H1 |].
      simpl. split; [intuition discriminate | discriminate]. }
    destruct (String.eqb_spec s "mlp") as [-> | N4].
    { split; [discriminate |]. split; [apply H1 |].
      simpl. split; [reflexivity | auto]. }
    split; [discriminate |]. split; [exact H3 |].
    simpl. split; [intuition discriminate | intro E; congruence].
  - split; [discriminate |]. split; [exact H3 |].
    simpl. split; [intuition discriminate | discriminate].
Qed.

(** X3: in the flags of an accepted command line the number of jobs is never
    0: it is the value of [--n_jobs] when given and not 0, and 2 otherwise;
    the verbose flag is set by [-v] as well as by [-d]; the file names are
    those given, and there is at least one. *)
Theorem flags_of_command_line (a : argv) (files : list string) (fl : flags)
    (classifiers : list classifier) :
  parseArguments a = Ok (files, fl, classifiers) ->
  flag_n_jobs fl <> 0%Z
  /\ flag_n_jobs fl = match argv_n_jobs a with
                      | Some j => if (j =? 0)%Z then 2%Z else j
                      | None => 2%Z
                      end
  /\ flag_v fl = (argv_verbose a || argv_debug a)
  /\ flag_d fl = argv_debug a
  /\ files = argv_files a /\ files <> [].
Proof.
  unfold parseArguments, parse_args.
  destruct (argv_files a) as [| f fs] eqn:Hf; [discriminate |].
  destruct (match argv_classifier a with
            | Some name => existsb (String.eqb name) (choices prepareArgParser)
            | None => true
            end); [| discriminate].
  cbn [rbind dataset_filenames n_jobs verbose debug learning_curve_steps classifier_arg].
  intro Hr. injection Hr as <- <- _.
  cbn [flag_n_jobs flag_v flag_d].
  change (default_n_jobs prepareArgParser) with 2%Z.
  destruct (argv_n_jobs a) as [j |]; cbn [or_default].
  - destruct (Z.eqb_spec j 0); repeat split; try discriminate; assumption.
  - repeat split; discriminate.
Qed.

Lemma flags_of_command_line_witness :
  let a := {| argv_files := ["news.csv"]; argv_n_jobs := Some 0%Z; argv_verbose := false;
              argv_debug := true; argv_lc := None; argv_classifier := Some "mlp" |} in
  let fl := {| flag_v := true; flag_d := true; flag_n_jobs := 2; flag_lc := 1 |} in
  parseArguments a = Ok (["news.csv"], fl, [MLPClassifier])
  /\ flag_n_jobs fl <> 0%Z.
Proof.
  intros a fl.
  assert (Hp : parseArguments a = Ok (["news.csv"], fl, [MLPClassifier])) by reflexivity.
  split; [exact Hp |].
  exact (proj1 (@flags_of_command_line a ["news.csv"] fl [MLPClassifier] Hp)).
Defined.

(** X4: when [-lc] is not given, every classifier is evaluated on one slice,
    the whole dataset (of fewer than 2^53 records). *)
Theorem default_is_one_full_slice (a : argv) (files : list string) (fl : flags)
    (classifiers : list classifier) (n : nat) :
  parseArguments a = Ok (files, fl, classifiers) ->
  argv_lc a = None ->
  (Z.of_nat n < 2 ^ 53)%Z ->
  slice_sizes (flag_lc fl) n = Ok [Z.of_nat n].
Proof.
  unfold parseArguments, parse_args.
  destruct (argv_files a) as [| f fs]; [discriminate |].
  destruct (match argv_classifier a with
            | Some name => existsb (String.eqb name) (choices prepareArgParser)
            | None => true
            end); [| discriminate].
  cbn [rbind dataset_filenames n_jobs verbose debug learning_curve_steps classifier_arg].
  intros Hr Hlc Hn. injection Hr as _ <- _. cbn [flag_lc]. rewrite Hlc.
  cbn [or_default]. change (default_learning_curve_steps prepareArgParser) with 1%Z.
  apply one_step_one_slice. exact Hn.
Qed.

Lemma default_is_one_full_slice_witness :
  let a := {| argv_files := ["news.csv"]; argv_n_jobs := None; argv_verbose := false;
              argv_debug := false; argv_lc := None; argv_classifier := None |} in
  parseArguments a
  = Ok (["news.csv"], Sample.flags1, [LinearSVC; MultinomialNB; RandomForestClassifier])
  /\ argv_lc a = None /\ (Z.of_nat 10 < 2 ^ 53)%Z
  /\ slice_sizes (flag_lc Sample.flags1) 10 = Ok [Z.of_nat 10].
Proof.
  intro a.
  assert (Hp : parseArguments a
               = Ok (["news.csv"], Sample.flags1,
                     [LinearSVC; MultinomialNB; RandomForestClassifier])) by reflexivity.
  assert (Hn : (Z.of_nat 10 < 2 ^ 53)%Z) by reflexivity.
  split; [exact Hp |]. split; [reflexivity |]. split; [exact Hn |].
  exact (@default_is_one_full_slice a ["news.csv"] Sample.flags1
           [LinearSVC; MultinomialNB; RandomForestClassifier] 10 Hp eq_refl Hn).
Defined.

(** ** The evaluator *)

Lemma length_take_le {A} (val : Z) (l : list A) : length (take val l) <= length l.
Proof. unfold take. destruct (0 <=? val)%Z; rewrite length_firstn; lia. Qed.

Lemma take_all {A} (l : list A) : take (Z.of_nat (length l)) l = l.
Proof.
  unfold take. replace (0 <=? Z.of_nat (length l))%Z with true
    by (symmetry; apply Z.leb_le; lia).
  rewrite Nat2Z.id. apply firstn_all.
Qed.

(** The sizes for [1 <= lc]: there are [lc] of them. *)
Lemma slice_sizes_length (lc : Z) (n : nat) :
  (1 <= lc)%Z -> exists s, slice_sizes lc n = Ok s /\ length s = Z.to_nat lc.
Proof.
  intro Hlc. destruct (linspace_unit Hlc) as (p & Hp & Hlen & _).
  unfold slice_sizes. rewrite Hp. cbn [rbind]. eexists. split; [reflexivity |].
  unfold astype_int, scale. destruct p; [discriminate |].
  cbn [map tl]. rewrite !length_map. simpl in Hlen. lia.
Qed.

(** The last size is the size of the dataset. *)
Lemma slice_sizes_last (lc : Z) (n : nat) (s : list Z) :
  (1 <= lc)%Z -> (Z.of_nat n < 2 ^ 53)%Z -> slice_sizes lc n = Ok s ->
  last s 0%Z = Z.of_nat n.
Proof.
  intros Hlc Hn. destruct (linspace_unit Hlc) as (p & Hp & Hlen & _ & Hend).
  unfold slice_sizes. rewrite Hp. cbn [rbind]. intro Hs. injection Hs as <-.
  unfold astype_int, scale.
  destruct (nth_error_split _ _ Hend) as (l1 & l2 & -> & Hl1).
  rewrite length_app in Hlen. cbn [length] in Hlen.
  destruct l2 as [| x l2]; [| simpl in Hlen; lia].
  destruct l1 as [| a l1]; [simpl in Hl1; lia |].
  cbn [app map tl]. rewrite !map_app. cbn [map]. rewrite last_last.
  apply to_int_of_int. exact Hn.
Qed.

(** The world after the slices [s] were handed to cross-validation. *)
Lemma evaluator_loop `{Library} (clf : classifier) (X : list row) (y : list label)
    (s : list Z) :
  forall (w w' : world) (r : result (list (list label))),
  for_append s (fun val => cross_val_predict clf (take val X) (take val y) 5) w = (r, w') ->
  sink w' = sink w
  /\ (exists done, cv_log w' = cv_log w ++ map (fun val => length (take val X)) done
                   /\ exists rest, s = done ++ rest
                   /\ (forall ps, r = Ok ps ->
                         rest = []
                         /\ Forall2 (fun val p => length p = length (take val X)) s ps)
                   /\ (forall e, r = Raise e -> done <> [])).
Proof.
  induction s as [| val s IH]; intros w w' r.
  - cbn [for_append]. unfold ret. intro Hr. injection Hr as <- <-.
    split; [reflexivity |].
    exists []. split; [cbn [map]; rewrite app_nil_r; reflexivity |].
    exists []. split; [reflexivity |]. split.
    + intros ps Hps. injection Hps as <-. split; [reflexivity | constructor].
    + intros e He. discriminate.
  - cbn [for_append]. unfold bind at 1.
    destruct (cross_val_predict clf (take val X) (take val y) 5 w) as [[p | e] w1] eqn:Hcv;
      apply cross_val_predict_frame in Hcv; destruct Hcv as (Hs1 & Hlog1 & Hp).
    + unfold bind, ret.
      destruct (for_append s _ w1) as [[ps | e] w2] eqn:Hloop.
      * intro Hr. injection Hr as <- <-.
        destruct (IH _ _ _ Hloop) as (Hs & done & Hlog & rest & Hsplit & Hok & _).
        destruct (Hok ps eq_refl) as [-> Hall]. rewrite app_nil_r in Hsplit. subst done.
        split; [rewrite Hs; exact Hs1 |].
        exists (val :: s). split.
        { rewrite Hlog, Hlog1. cbn [map]. rewrite <- app_assoc. reflexivity. }
        exists []. split; [rewrite app_nil_r; reflexivity |]. split.
        -- intros ps' Hps'. injection Hps' as <-. split; [reflexivity |].
           constructor; [apply Hp; reflexivity | exact Hall].
        -- intros e He. discriminate.
      * intro Hr. injection Hr as <- <-.
        destruct (IH _ _ _ Hloop) as (Hs & done & Hlog & rest & Hsplit & _ & _).
        split; [rewrite Hs; exact Hs1 |].
        exists (val :: done). split.
        { rewrite Hlog, Hlog1. cbn [map]. rewrite <- app_assoc. reflexivity. }
        exists rest. split; [rewrite Hsplit; reflexivity |]. split.
        -- intros ps Hps. discriminate.
        -- intros e' _. discriminate.
    + intro Hr. injection Hr as <- <-.
      split; [exact Hs1 |].
      exists [val]. split; [exact Hlog1 |].
      exists s. split; [reflexivity |]. split.
      * intros ps Hps. discriminate.
      * intros e' _. discriminate.
Qed.

(** X5: for a step count of 0 the evaluator returns no prediction sequence,
    and for one below -1 it raises the [ValueError] of [linspace]; for every
    step count up to 0 it hands nothing to cross-validation and leaves
    output and random generator as they were. *)
Theorem non_positive_steps `{Library} (clf : classifier) (X : list row)
    (y : list label) (lc : Z) (w : world) :
  (lc <= 0)%Z ->
  snd (predictAndEvaluate clf X y lc w) = w
  /\ ((-1 <= lc)%Z -> fst (predictAndEvaluate clf X y lc w) = Ok [])
  /\ ((lc < -1)%Z ->
      fst (predictAndEvaluate clf X y lc w) = Raise (ValueError NegativeSamples)).
Proof.
  intro Hlc.
  destruct (Z_lt_le_dec lc (-1)) as [Hneg | Hge].
  - assert (E : predictAndEvaluate clf X y lc w = (Raise (ValueError NegativeSamples), w)).
    { unfold predictAndEvaluate, bind, lift, slice_sizes, linspace.
      replace (lc + 1 <? 0)%Z with true by (symmetry; apply Z.ltb_lt; lia).
      reflexivity. }
    rewrite E. split; [reflexivity |]. split; [lia | reflexivity].
  - assert (E : predictAndEvaluate clf X y lc w = (Ok [], w)).
    { assert (Hcase : lc = 0%Z \/ lc = (-1)%Z) by lia.
      destruct Hcase as [-> | ->]; reflexivity. }
    rewrite E. split; [reflexivity |]. split; [reflexivity | lia].
Qed.

Lemma non_positive_steps_witness :
  (0 <= 0)%Z
  /\ fst (predictAndEvaluate (H := Sample.library) LinearSVC
            (map (fun g => [g]) Sample.guess6) Sample.real6 0 Sample.world0) = Ok []
  /\ fst (predictAndEvaluate (H := Sample.library) LinearSVC
            (map (fun g => [g]) Sample.guess6) Sample.real6 (-3) Sample.world0)
     = Raise (ValueError NegativeSamples).
Proof.
  split; [lia |]. split.
  - apply (proj1 (proj2 (@non_positive_steps Sample.library LinearSVC
                           (map (fun g => [g]) Sample.guess6) Sample.real6 0
                           Sample.world0 ltac:(lia)))). lia.
  - apply (proj2 (proj2 (@non_positive_steps Sample.library LinearSVC
                           (map (fun g => [g]) Sample.guess6) Sample.real6 (-3)
                           Sample.world0 ltac:(lia)))). lia.
Defined.

(** X6: a dataset of fewer than 5 records cannot be evaluated: for every
    step count from 1 on the evaluator raises on its first slice, after
    handing that one slice to cross-validation and before any model is
    trained: the error of an array with no sample when the first slice is
    empty, and that of a split with more folds than samples otherwise. *)
Theorem small_dataset_rejected `{Library} (clf : classifier) (X : list row)
    (y : list label) (lc : Z) (w : world) :
  (1 <= lc)%Z -> length X = length y -> length y < 5 ->
  exists m, m < 5
    /\ predictAndEvaluate clf X y lc w
       = (Raise (ValueError (if m =? 0 then NoSample else SplitsGtSamples 5 m)),
          {| sink := sink w; cv_log := cv_log w ++ [m]; rng := rng w |}).
Proof.
  intros Hlc Hlen Hsmall.
  destruct (slice_sizes_length (length y) Hlc) as (s & Hs & Hn).
  destruct s as [| val s]; [simpl in Hn; lia |].
  exists (length (take val X)).
  pose proof (length_take_le val X) as Hle.
  split; [lia |].
  unfold predictAndEvaluate, bind, lift. rewrite Hs. cbn [for_append].
  unfold bind. rewrite cross_val_predict_run. cbn zeta.
  rewrite <- (length_take val X y Hlen), Nat.eqb_refl. cbn [negb].
  destruct (length (take val X) =? 0); [reflexivity |].
  replace (length (take val X) <? 5) with true by (symmetry; apply Nat.ltb_lt; lia).
  reflexivity.
Qed.

Lemma small_dataset_rejected_witness :
  let X := [["REAL"]; ["FAKE"]; ["REAL"]] in
  let y := ["REAL"; "FAKE"; "REAL"] in
  (1 <= 2)%Z /\ length X = length y /\ length y < 5
  /\ (exists m, m < 5
        /\ predictAndEvaluate (H := Sample.library) LinearSVC X y 2 Sample.world0
           = (Raise (ValueError (if m =? 0 then NoSample else SplitsGtSamples 5 m)),
              {| sink := sink Sample.world0; cv_log := cv_log Sample.world0 ++ [m];
                 rng := rng Sample.world0 |}))
  /\ fst (predictAndEvaluate (H := Sample.library) LinearSVC X y 2 Sample.world0)
     = Raise (ValueError (SplitsGtSamples 5 1))
  /\ fst (predictAndEvaluate (H := Sample.library) LinearSVC X y 7 Sample.world0)
     = Raise (ValueError NoSample).
Proof.
  intros X y.
  split; [lia |]. split; [reflexivity |]. split; [simpl; lia |]. split.
  - apply (@small_dataset_rejected Sample.library LinearSVC X y 2 Sample.world0);
      [lia | reflexivity | simpl; lia].
  - split; vm_compute; reflexivity.
Defined.

(** X7: when the evaluator returns, for a step count [lc >= 1] and fewer
    than 2^53 records, it returns [lc] prediction sequences, each with one
    prediction per record of its slice, the last with one per record of the
    dataset; the slices were handed to cross-validation in their order, and
    nothing was written to the output. *)
Theorem evaluator_result_shape `{Library} (clf : classifier) (X : list row)
    (y : list label) (lc : Z) (w w' : world) (predicts : list (list label)) :
  (1 <= lc)%Z -> (Z.of_nat (length y) < 2 ^ 53)%Z -> length X = length y ->
  predictAndEvaluate clf X y lc w = (Ok predicts, w') ->
  exists s, slice_sizes lc (length y) = Ok s
    /\ length predicts = Z.to_nat lc
    /\ Forall2 (fun val p => length p = length (take val y)) s predicts
    /\ length (last predicts []) = length y
    /\ cv_log w' = cv_log w ++ map (fun val => length (take val y)) s
    /\ sink w' = sink w.
Proof.
  intros Hlc Hn Hlen Hrun.
  destruct (slice_sizes_length (length y) Hlc) as (s & Hs & Hcount).
  pose proof (@slice_sizes_last lc (length y) s Hlc Hn Hs) as Hlast.
  unfold predictAndEvaluate, bind, lift in Hrun. rewrite Hs in Hrun.
  destruct (@evaluator_loop _ clf X y s w w' (Ok predicts) Hrun)
    as (Hsink & done & Hlog & rest & Hsplit & Hok & _).
  destruct (Hok predicts eq_refl) as [-> Hall]. rewrite app_nil_r in Hsplit. subst done.
  assert (Hall' : Forall2 (fun val p => length p = length (take val y)) s predicts).
  { eapply Forall2_impl; [| exact Hall]. cbn beta. intros val p Hp.
    rewrite Hp. apply length_take. exact Hlen. }
  exists s. split; [exact Hs |].
  pose proof (Forall2_length Hall) as Hlens.
  split; [lia |]. split; [exact Hall' |]. split.
  - destruct s as [| v0 s] using rev_ind; [simpl in Hcount; lia |].
    clear IHs. apply Forall2_app_inv_l in Hall'.
    destruct Hall' as (ps1 & ps2 & _ & Hx & ->).
    inversion Hx as [| v p l l' Hp Hnil]; subst. inversion Hnil; subst.
    rewrite last_last in Hlast. rewrite last_last, Hp, Hlast. rewrite take_all. reflexivity.
  - split; [| assumption].
    rewrite Hlog. f_equal. apply map_ext. intro val. apply length_take. exact Hlen.
Qed.

Lemma evaluator_result_shape_witness :
  let y := ["REAL"; "REAL"; "REAL"; "REAL"; "REAL"; "FAKE"; "FAKE"; "FAKE"; "FAKE"; "FAKE"] in
  let X := map (fun g => [g]) (rev y) in
  let run := predictAndEvaluate (H := Sample.library) LinearSVC X y 2 Sample.world0 in
  (1 <= 2)%Z /\ (Z.of_nat (length y) < 2 ^ 53)%Z /\ length X = length y
  /\ run = (Ok [firstn 5 (rev y); rev y], snd run)
  /\ exists s, slice_sizes 2 (length y) = Ok s
       /\ length [firstn 5 (rev y); rev y] = Z.to_nat 2
       /\ Forall2 (fun val p => length p = length (take val y)) s [firstn 5 (rev y); rev y]
       /\ length (last [firstn 5 (rev y); rev y] []) = length y
       /\ cv_log (snd run) = cv_log Sample.world0 ++ map (fun val => length (take val y)) s
       /\ sink (snd run) = sink Sample.world0.
Proof.
  intros y X run.
  assert (Hn : (Z.of_nat (length y) < 2 ^ 53)%Z) by reflexivity.
  assert (Hrun : run = (Ok [firstn 5 (rev y); rev y], snd run)) by (vm_compute; reflexivity).
  split; [lia |]. split; [exact Hn |]. split; [reflexivity |]. split; [exact Hrun |].
  exact (@evaluator_result_shape Sample.library LinearSVC X y 2 Sample.world0 (snd run)
           [firstn 5 (rev y); rev y] ltac:(lia) Hn eq_refl Hrun).
Defined.

(** X8: whatever its outcome, the evaluator writes nothing to the output,
    and only adds to the record of the slices handed to cross-validation. *)
Theorem evaluator_frame `{Library} (clf : classifier) (X : list row)
    (y : list label) (lc : Z) (w : world) :
  sink (snd (predictAndEvaluate clf X y lc w)) = sink w
  /\ exists added, cv_log (snd (predictAndEvaluate clf X y lc w)) = cv_log w ++ added.
Proof.
  unfold predictAndEvaluate, bind, lift.
  destruct (slice_sizes lc (length y)) as [s | e].
  - destruct (for_append s _ w) as [r w'] eqn:Hloop.
    destruct (@evaluator_loop _ clf X y s w w' r Hloop) as (Hsink & done & Hlog & _).
    cbn [snd]. split; [exact Hsink |].
    eexists. exact Hlog.
  - cbn [snd]. split; [reflexivity |].
    exists []. rewrite app_nil_r. reflexivity.
Qed.

(** ** The reporter *)

Lemma printResults_world `{Library} (name : string) (real : list label)
    (predicts : list (list label)) (w : world) :
  (exists written, sink (snd (printResults name real predicts w)) = sink w ++ written)
  /\ cv_log (snd (printResults name real predicts w)) = cv_log w
  /\ rng (snd (printResults name real predicts w)) = rng w.
Proof.
  rewrite printResults_run. cbn zeta.
  repeat match goal with
         | |- context [match ?r with Ok _ => _ | Raise _ => _ end] => destruct r
         | |- context [let '(_, _) := ?c in _] => destruct c
         | |- context [if ?b then _ else _] => destruct b
         end;
    (split; [eexists; cbn [snd]; rewrite ?sink_emit, <- ?app_assoc; reflexivity
            | split; reflexivity]).
Qed.

(** X9: whatever its outcome, [printResults] only adds to the output, its
    first write being the line of the classifier, so that what was written
    before a failure stays; it never touches the record of cross-validation
    nor the random generator. *)
Theorem printResults_appends `{Library} (name : string) (real : list label)
    (predicts : list (list label)) (w : world) :
  (exists more,
     sink (snd (printResults name real predicts w))
     = sink w ++ ("Classifier: " ++ name ++ nl)%string :: more)
  /\ cv_log (snd (printResults name real predicts w)) = cv_log w
  /\ rng (snd (printResults name real predicts w)) = rng w.
Proof.
  rewrite printResults_run. cbn zeta.
  destruct (getlast predicts) as [last | e];
    [| split; [exists []; reflexivity | split; reflexivity]].
  destruct (classification_report real last) as [report | e];
    [| split; [exists []; reflexivity | split; reflexivity]].
  destruct (counts_of real last) as [[[[tn fp] fn] tp] | e];
    [| split; [eexists; cbn [snd]; rewrite !sink_emit, <- app_assoc; reflexivity
              | split; reflexivity]].
  destruct (1 <? length predicts).
  - destruct (learning_curve real predicts) as [scores | e];
      (split; [eexists; cbn [snd]; rewrite !sink_emit, <- !app_assoc; reflexivity
              | split; reflexivity]).
  - split; [eexists; cbn [snd]; rewrite !sink_emit, <- !app_assoc; reflexivity
           | split; reflexivity].
Qed.

(** X10: when [printResults] returns, it made seven writes for a single
    prediction sequence, the last being the blank line after the matrix,
    and nine for more: the learning curve, a title and the scores, is
    written exactly when there is more than one sequence. *)
Theorem learning_curve_only_for_several `{Library} (name : string)
    (real : list label) (predicts : list (list label)) (w w' : world) :
  printResults name real predicts w = (Ok tt, w') ->
  exists written,
    sink w' = sink w ++ written
    /\ length written = (if 1 <? length predicts then 9 else 7)
    /\ (length predicts <= 1 -> last written EmptyString = nl).
Proof.
  rewrite printResults_run. cbn zeta.
  destruct (getlast predicts) as [last | e]; [| discriminate].
  destruct (classification_report real last) as [report | e]; [| discriminate].
  destruct (counts_of real last) as [[[[tn fp] fn] tp] | e]; [| discriminate].
  destruct (1 <? length predicts) eqn:Hmany.
  - destruct (learning_curve real predicts) as [scores | e]; [| discriminate].
    intro Hr. injection Hr as <-. eexists. split.
    + rewrite !sink_emit, <- !app_assoc. reflexivity.
    + split; [reflexivity |]. apply Nat.ltb_lt in Hmany. lia.
  - intro Hr. injection Hr as <-. eexists. split.
    + rewrite !sink_emit, <- !app_assoc. reflexivity.
    + split; reflexivity.
Qed.

Lemma learning_curve_only_for_several_witness :
  let run := printResults (H := Sample.library) "LinearSVC" Sample.real6
               [Sample.guess6] Sample.world0 in
  run = (Ok tt, snd run)
  /\ exists written,
       sink (snd run) = sink Sample.world0 ++ written
       /\ length written = (if 1 <? length [Sample.guess6] then 9 else 7)
       /\ (length [Sample.guess6] <= 1 -> last written EmptyString = nl).
Proof.
  intro run.
  assert (Hrun : run = (Ok tt, snd run)) by (vm_compute; reflexivity).
  split; [exact Hrun |].
  exact (@learning_curve_only_for_several Sample.library "LinearSVC" Sample.real6
           [Sample.guess6] Sample.world0 (snd run) Hrun).
Defined.

(** X11: when the last prediction sequence has not as many entries as there
    are true labels, [printResults] raises the [ValueError] of inconsistent
    lengths after its first write, the line of the classifier. *)
Theorem report_length_mismatch `{Library} (name : string) (real last : list label)
    (predicts : list (list label)) (w : world) :
  getlast predicts = Ok last ->
  length real <> length last ->
  printResults name real predicts w
  = (Raise (ValueError InconsistentSamples),
     emit w [("Classifier: " ++ name ++ nl)%string]).
Proof.
  intros Hlast Hlen. rewrite printResults_run. cbn zeta. rewrite Hlast.
  unfold classification_report. apply Nat.eqb_neq in Hlen. rewrite Hlen. reflexivity.
Qed.

Lemma report_length_mismatch_witness :
  getlast [firstn 3 Sample.guess6] = Ok (firstn 3 Sample.guess6)
  /\ length Sample.real6 <> length (firstn 3 Sample.guess6)
  /\ printResults (H := Sample.library) "LinearSVC" Sample.real6
       [firstn 3 Sample.guess6] Sample.world0
     = (Raise (ValueError InconsistentSamples),
        emit Sample.world0 [("Classifier: " ++ "LinearSVC" ++ nl)%string]).
Proof.
  assert (Hne : length Sample.real6 <> length (firstn 3 Sample.guess6))
    by (simpl; lia).
  split; [reflexivity |]. split; [exact Hne |].
  exact (@report_length_mismatch Sample.library "LinearSVC" Sample.real6
           (firstn 3 Sample.guess6) [firstn 3 Sample.guess6] Sample.world0 eq_refl Hne).
Defined.

(** ** The evaluator and the reporter together *)

Lemma tl_map {A B} (f : A -> B) (l : list A) : tl (map f l) = map f (tl l).
Proof. destruct l; reflexivity. Qed.

(** The sizes [printResults] recomputes are those the evaluator used. *)
Lemma curve_sizes_slice_sizes (k n : nat) :
  curve_sizes k n = slice_sizes (Z.of_nat k) n.
Proof.
  unfold curve_sizes, slice_sizes.
  destruct (linspace fzero fone (Z.of_nat k + 1)) as [p | e]; [| reflexivity].
  cbn [rbind]. unfold astype_int, scale. rewrite !tl_map. reflexivity.
Qed.

Lemma curve_rows (real : list label) :
  forall (s : list Z) (predicts : list (list label)),
  Forall2 (fun val p => length p = length (take val real)) s predicts ->
  rmap (fun i => rbind (getitem s i) (fun si =>
                 rbind (getitem predicts i) (fun p =>
                 accuracy_score (take si real) p)))
       (seq 0 (length predicts))
  = Ok (map (fun p => accuracy (firstn (length p) real) p) predicts).
Proof.
  induction 1 as [| val p s predicts Hp Hall IH]; [reflexivity |].
  cbn [length seq rmap]. rewrite rmap_seq_shift.
  cbn [getitem nth_error rbind]. unfold accuracy_score at 1.
  rewrite <- Hp, Nat.eqb_refl. cbn [rbind].
  change (rmap (fun i => rbind (getitem (val :: s) (S i)) (fun si =>
                         rbind (getitem (p :: predicts) (S i)) (fun p0 =>
                         accuracy_score (take si real) p0))))
    with (rmap (fun i => rbind (getitem s i) (fun si =>
                         rbind (getitem predicts i) (fun p0 =>
                         accuracy_score (take si real) p0)))).
  rewrite IH. cbn [rbind map]. do 2 f_equal.
  rewrite (take_by_length val real), <- Hp. reflexivity.
Qed.

(** X12: what the evaluator returns, the reporter can score: for a step
    count [lc >= 1], the learning curve computed from the prediction
    sequences of [predictAndEvaluate] never fails on a length, and scores
    every sequence against the true labels of its own slice. *)
Theorem evaluator_output_is_scored `{Library} (clf : classifier) (X : list row)
    (y : list label) (lc : Z) (w w' : world) (predicts : list (list label)) :
  (1 <= lc)%Z -> length X = length y ->
  predictAndEvaluate clf X y lc w = (Ok predicts, w') ->
  learning_curve y predicts
  = Ok (map (fun p => accuracy (firstn (length p) y) p) predicts).
Proof.
  intros Hlc Hlen Hrun.
  destruct (slice_sizes_length (length y) Hlc) as (s & Hs & Hcount).
  unfold predictAndEvaluate, bind, lift in Hrun. rewrite Hs in Hrun.
  destruct (@evaluator_loop _ clf X y s w w' (Ok predicts) Hrun)
    as (_ & done & _ & rest & _ & Hok & _).
  destruct (Hok predicts eq_refl) as [_ Hall].
  assert (Hall' : Forall2 (fun val p => length p = length (take val y)) s predicts).
  { eapply Forall2_impl; [| exact Hall]. cbn beta. intros val p Hp.
    rewrite Hp. apply length_take. exact Hlen. }
  pose proof (Forall2_length Hall) as Hk.
  unfold learning_curve. rewrite curve_sizes_slice_sizes.
  replace (Z.of_nat (length predicts)) with lc by lia.
  rewrite Hs. cbn [rbind]. apply curve_rows. exact Hall'.
Qed.

Lemma evaluator_output_is_scored_witness :
  let y := ["REAL"; "REAL"; "REAL"; "REAL"; "REAL"; "FAKE"; "FAKE"; "FAKE"; "FAKE"; "FAKE"] in
  let X := map (fun g => [g]) (rev y) in
  let predicts := [firstn 5 (rev y); rev y] in
  let run := predictAndEvaluate (H := Sample.library) LinearSVC X y 2 Sample.world0 in
  (1 <= 2)%Z /\ length X = length y
  /\ run = (Ok predicts, snd run)
  /\ learning_curve y predicts
     = Ok (map (fun p => accuracy (firstn (length p) y) p) predicts).
Proof.
  intros y X predicts run.
  assert (Hrun : run = (Ok predicts, snd run)) by (vm_compute; reflexivity).
  split; [lia |]. split; [reflexivity |]. split; [exact Hrun |].
  exact (@evaluator_output_is_scored Sample.library LinearSVC X y 2 Sample.world0
           (snd run) predicts ltac:(lia) eq_refl Hrun).
Defined.

(** ** The features *)

Lemma length_heads {cell} (cols : list (list cell)) :
  Forall (fun c => 0 < length c) cols -> length (heads cols) = length cols.
Proof.
  induction 1 as [| c cols Hc _ IH]; [reflexivity |].
  unfold heads in *. cbn [flat_map]. destruct c as [| x c]; [simpl in Hc; lia |].
  cbn [app length]. rewrite IH. reflexivity.
Qed.

(** Every row of a frame has one cell per column. *)
Lemma rows_of_width {cell} (n : nat) :
  forall cols : list (list cell),
  Forall (fun c => length c = n) cols ->
  Forall (fun r => length r = length cols) (rows_of n cols).
Proof.
  induction n as [| n IH]; intros cols Hcols; [constructor |].
  cbn [rows_of]. constructor.
  - apply length_heads. eapply Forall_impl; [| exact Hcols]. cbn beta. intros c Hc. lia.
  - rewrite <- (length_map (@tl cell) cols). apply IH.
    apply Forall_map. eapply Forall_impl; [| exact Hcols]. cbn beta.
    intros c Hc. destruct c; simpl in *; lia.
Qed.

Lemma filter_complement_length {A} (f : A -> bool) (l : list A) :
  length (filter f l) + length (filter (fun x => negb (f x)) l) = length l.
Proof.
  induction l as [| x l IH]; [reflexivity |].
  cbn [filter]. destruct (f x); cbn [negb length]; lia.
Qed.

(** X13: on a well-formed frame with one column "Tag", the features
    [getDatasetValues] returns hold one row per record and, in every row,
    one cell per column other than "Tag": the label is not among the
    features.  The call writes nothing and hands nothing to
    cross-validation. *)
Theorem features_leave_out_the_label {cell} (df : DataFrame cell) (y0 : list cell)
    (w w' : world) (X : list (list cell)) (y : list cell) (Id : list string) :
  well_formed df ->
  loc_tolist df "Tag" = Ok y0 ->
  getDatasetValues df w = (Ok (X, y, Id), w') ->
  length X = n_rows df
  /\ Forall (fun r => S (length r) = length (columns df)) X
  /\ sink w' = sink w /\ cv_log w' = cv_log w.
Proof.
  intros Hwf Hy0 Hrun.
  pose proof (loc_tolist_in _ _ Hy0) as Hin.
  pose proof (drop_present _ _ _ Hin) as Hdrop.
  set (df' := {| index := index df; columns := _ |}) in Hdrop.
  assert (Hone : length (filter (labelled "Tag") (columns df)) = 1).
  { unfold loc_tolist in Hy0.
    destruct (filter (labelled "Tag") (columns df)) as [| c [| c' l]]; try discriminate.
    reflexivity. }
  assert (Hwidth : Forall (fun r => S (length r) = length (columns df)) (values df')).
  { unfold values, df'. cbn [columns index].
    eapply Forall_impl;
      [| apply (@rows_of_width cell (n_rows df)
                  (map snd (filter (fun c => negb (labelled "Tag" c)) (columns df))))].
    - cbn beta. intros r Hr. rewrite Hr, length_map.
      pose proof (filter_complement_length (labelled "Tag") (columns df)). lia.
    - apply Forall_map. apply Forall_forall. intros c Hc.
      apply filter_In in Hc. destruct Hc as [Hc _].
      unfold well_formed in Hwf. rewrite Forall_forall in Hwf. apply (Hwf _ Hc). }
  assert (HlenX : length (values df') = n_rows df) by apply length_rows_of.
  unfold getDatasetValues, bind, lift in Hrun. rewrite Hy0, Hdrop in Hrun.
  unfold shuffle in Hrun. destruct (negb _); [discriminate |].
  pose proof (fisher_yates_perm (length (values df') - 1) (seq 0 (length (values df')))
                (rng w)) as Hperm.
  unfold shuffled_indices in Hrun.
  destruct (fisher_yates _ _ (rng w)) as [indices g]. cbn [fst snd] in Hperm.
  destruct (safe_indexing (values df') indices) as [X1 |] eqn:HX; [| discriminate].
  destruct (safe_indexing y0 indices) as [y1 |]; [| discriminate].
  destruct (safe_indexing (index df') indices) as [Id1 |] eqn:HId; [| discriminate].
  cbn [rbind] in Hrun. injection Hrun as <- <- <- <-. cbn [sink cv_log rng].
  split.
  - apply rmap_length in HX. apply Permutation_length in Hperm.
    rewrite HX, Hperm, length_seq. exact HlenX.
  - split.
    + apply safe_indexing_spec in HX. apply Forall_forall. intros r Hr.
      assert (Hsome : In (Some r) (map (nth_error (values df')) indices))
        by (rewrite HX; apply in_map; exact Hr).
      apply in_map_iff in Hsome. destruct Hsome as (i & Hi & _).
      apply nth_error_In in Hi. rewrite Forall_forall in Hwidth. apply Hwidth. exact Hi.
    + split; reflexivity.
Qed.

Lemma features_leave_out_the_label_witness :
  let run := getDatasetValues Sample.frame Sample.world0 in
  let X := [["REAL"]; ["REAL"]; ["REAL"]; ["FAKE"]; ["FAKE"]; ["REAL"]] in
  let y := ["REAL"; "REAL"; "REAL"; "REAL"; "FAKE"; "REAL"] in
  let Id := ["n2"; "n3"; "n4"; "n5"; "n6"; "n1"] in
  well_formed Sample.frame
  /\ loc_tolist Sample.frame "Tag" = Ok Sample.real6
  /\ run = (Ok (X, y, Id), snd run)
  /\ length X = n_rows Sample.frame
  /\ Forall (fun r => S (length r) = length (columns Sample.frame)) X
  /\ sink (snd run) = sink Sample.world0 /\ cv_log (snd run) = cv_log Sample.world0.
Proof.
  intros run X y Id.
  assert (Hwf : well_formed Sample.frame) by (repeat constructor).
  assert (Hrun : run = (Ok (X, y, Id), snd run)) by (vm_compute; reflexivity).
  split; [exact Hwf |]. split; [reflexivity |]. split; [exact Hrun |].
  exact (@features_leave_out_the_label string Sample.frame Sample.real6 Sample.world0
           (snd run) X y Id Hwf eq_refl Hrun).
Defined.

(** ** The loop over the classifiers *)

(** X14: when the loop over the classifiers returns, every classifier was
    cross-validated on the same slices, in the same order: the record of
    cross-validation grew by the slice lengths once per classifier. *)
Theorem classifiers_share_the_slices `{Library} (classifiers : list classifier)
    (X : list row) (y : list label) (fl : flags) (s : list Z) :
  length X = length y ->
  slice_sizes (flag_lc fl) (length y) = Ok s ->
  forall (predicts0 predicts : list (list label)) (w w' : world),
  evaluate_all classifiers X y fl predicts0 w = (Ok predicts, w') ->
  cv_log w'
  = cv_log w ++ concat (map (fun _ => map (fun val => length (take val y)) s) classifiers).
Proof.
  intros Hlen Hs. induction classifiers as [| clf rest IH]; intros predicts0 predicts w w'.
  - cbn [evaluate_all]. unfold ret. intro Hr. injection Hr as _ <-.
    cbn [map concat]. rewrite app_nil_r. reflexivity.
  - cbn [evaluate_all]. unfold bind at 1.
    destruct (predictAndEvaluate clf X y (flag_lc fl) w) as [[ps | e] w1] eqn:Hev;
      [| discriminate].
    unfold bind at 1.
    pose proof (printResults_world (class_name clf) y ps w1) as (_ & Hcv & _).
    destruct (printResults (class_name clf) y ps w1) as [[[] | e] w2]; [| discriminate].
    cbn [snd] in Hcv.
    intro Hrest. pose proof (IH _ _ _ _ Hrest) as Hlog.
    unfold predictAndEvaluate, bind, lift in Hev. rewrite Hs in Hev.
    destruct (@evaluator_loop _ clf X y s w w1 (Ok ps) Hev)
      as (_ & done & Hlog1 & tail & Hsplit & Hok & _).
    destruct (Hok ps eq_refl) as [-> _]. rewrite app_nil_r in Hsplit. subst done.
    rewrite Hlog, Hcv, Hlog1. cbn [map concat]. rewrite <- app_assoc. do 2 f_equal.
    apply map_ext. intro val. apply length_take. exact Hlen.
Qed.

Lemma classifiers_share_the_slices_witness :
  let X := map (fun g => [g]) Sample.guess6 in
  let y := Sample.real6 in
  let run := evaluate_all (H := Sample.library) [LinearSVC; MultinomialNB] X y
               Sample.flags1 [] Sample.world0 in
  length X = length y
  /\ slice_sizes (flag_lc Sample.flags1) (length y) = Ok [6%Z]
  /\ run = (Ok [Sample.guess6], snd run)
  /\ cv_log (snd run) = [6; 6].
Proof.
  intros X y run.
  assert (Hs : slice_sizes (flag_lc Sample.flags1) (length y) = Ok [6%Z])
    by (vm_compute; reflexivity).
  assert (Hrun : run = (Ok [Sample.guess6], snd run)) by (vm_compute; reflexivity).
  split; [reflexivity |]. split; [exact Hs |]. split; [exact Hrun |].
  exact (@classifiers_share_the_slices Sample.library [LinearSVC; MultinomialNB] X y
           Sample.flags1 [6%Z] eq_refl Hs [] [Sample.guess6] Sample.world0 (snd run) Hrun).
Defined.

(** ** The records listed as missed *)

(** The loop over a selection is the loop over all but its last
    classifier, followed by the evaluation and the report of the last: what
    it returns is what the evaluator returned for the last classifier. *)
Lemma evaluate_all_last `{Library} (classifiers : list classifier) (clf : classifier)
    (X : list row) (y : list label) (fl : flags) :
  forall (predicts0 predicts : list (list label)) (w w' : world),
  evaluate_all (classifiers ++ [clf]) X y fl predicts0 w = (Ok predicts, w') ->
  exists earlier w1 w2,
    evaluate_all classifiers X y fl predicts0 w = (Ok earlier, w1)
    /\ predictAndEvaluate clf X y (flag_lc fl) w1 = (Ok predicts, w2)
    /\ printResults (class_name clf) y predicts w2 = (Ok tt, w').
Proof.
  induction classifiers as [| c rest IH]; intros predicts0 predicts w w' Hrun;
    cbn [app evaluate_all] in Hrun; unfold bind at 1 in Hrun.
  - destruct (predictAndEvaluate clf X y (flag_lc fl) w) as [[ps | e] w1] eqn:Hev;
      [| discriminate].
    unfold bind at 1 in Hrun.
    destruct (printResults (class_name clf) y ps w1) as [[[] | e] w2] eqn:Hpr;
      [| discriminate].
    unfold ret in Hrun. injection Hrun as <- <-.
    exists predicts0, w, w1. repeat split; assumption.
  - destruct (predictAndEvaluate c X y (flag_lc fl) w) as [[ps | e] w1] eqn:Hev;
      [| discriminate].
    unfold bind at 1 in Hrun.
    destruct (printResults (class_name c) y ps w1) as [[[] | e] w2] eqn:Hpr;
      [| discriminate].
    destruct (IH _ _ _ _ Hrun) as (earlier & wa & wb & He & Hl & Hp).
    exists earlier, wa, wb. split; [| split; assumption].
    cbn [evaluate_all]. unfold bind at 1. rewrite Hev.
    unfold bind at 1. rewrite Hpr. exact He.
Qed.

(** X19: the records a dataset lists as missed are those of the last
    classifier of the selection alone: when the body of the dataset loop
    returns, the classifiers before the last were evaluated and reported
    first, and the last write is made of the entries of the positions at
    which the final prediction sequence of the last classifier differs from
    the true labels; what the classifiers before it mispredicted is not
    listed. *)
Theorem missed_come_from_last_classifier `{Library}
    (read_csv : string -> result (DataFrame string)) (fl : flags)
    (classifiers : list classifier) (clf : classifier) (dataset_filename : string)
    (w w' : world) :
  run_dataset read_csv fl (classifiers ++ [clf]) dataset_filename w = (Ok tt, w') ->
  exists df wd X y Ids earlier w1 w2 predicts,
    read_csv dataset_filename = Ok df
    /\ getDatasetValues df (emit w [("Dataset: " ++ dataset_filename ++ nl)%string])
       = (Ok (X, y, Ids), wd)
    /\ evaluate_all classifiers X y fl [] wd = (Ok earlier, w1)
    /\ predictAndEvaluate clf X y (flag_lc fl) w1 = (Ok predicts, w2)
    /\ last (sink w') EmptyString
       = (join " " (missed_list Ids y (last predicts [])) ++ nl)%string.
Proof.
  unfold run_dataset, bind, lift, print.
  change (join " " ["Dataset:"; dataset_filename] ++ nl)%string
    with ("Dataset: " ++ dataset_filename ++ nl)%string.
  destruct (read_csv dataset_filename) as [df |]; [| discriminate].
  destruct (getDatasetValues df _) as [[[[X y] Ids] |] wd] eqn:Hd; [| discriminate].
  destruct (evaluate_all (classifiers ++ [clf]) X y fl [] wd) as [[predicts |] w3] eqn:He;
    [| discriminate].
  destruct (missed_records Ids y predicts) as [missed |] eqn:Hm; [| discriminate].
  intro Hr. injection Hr as <-.
  destruct (@evaluate_all_last _ classifiers clf X y fl [] predicts wd w3 He)
    as (earlier & w1 & w2 & Hbefore & Hev & _).
  exists df, wd, X, y, Ids, earlier, w1, w2, predicts.
  split; [reflexivity |]. split; [exact Hd |]. split; [exact Hbefore |].
  split; [exact Hev |].
  apply getDatasetValues_lengths in Hd. destruct Hd as [_ Hlen].
  apply missed_records_ok in Hm; [| symmetry; exact Hlen]. subst missed.
  rewrite !sink_emit, <- app_assoc.
  change [("==============" ++ nl)%string;
          (join " " (missed_list Ids y (last predicts [])) ++ nl)%string]
    with ([("==============" ++ nl)%string]
          ++ [(join " " (missed_list Ids y (last predicts [])) ++ nl)%string]).
  rewrite !app_assoc. apply last_last.
Qed.

Lemma missed_come_from_last_classifier_witness :
  let read_csv := fun _ : string => Ok Sample.frame_two_misses in
  let run := run_dataset (H := Sample.library) read_csv Sample.flags1
               ([LinearSVC; MultinomialNB] ++ [RandomForestClassifier])
               "news.csv" Sample.world0 in
  run = (Ok tt, snd run)
  /\ exists df wd X y Ids earlier w1 w2 predicts,
       read_csv "news.csv" = Ok df
       /\ getDatasetValues df (emit Sample.world0 [("Dataset: " ++ "news.csv" ++ nl)%string])
          = (Ok (X, y, Ids), wd)
       /\ evaluate_all (H := Sample.library) [LinearSVC; MultinomialNB] X y Sample.flags1
            [] wd = (Ok earlier, w1)
       /\ predictAndEvaluate (H := Sample.library) RandomForestClassifier X y
            (flag_lc Sample.flags1) w1 = (Ok predicts, w2)
       /\ last (sink (snd run)) EmptyString
          = (join " " (missed_list Ids y (last predicts [])) ++ nl)%string.
Proof.
  intros read_csv run.
  assert (Hrun : run = (Ok tt, snd run)) by (vm_compute; reflexivity).
  split; [exact Hrun |].
  exact (@missed_come_from_last_classifier Sample.library read_csv Sample.flags1
           [LinearSVC; MultinomialNB] RandomForestClassifier "news.csv" Sample.world0
           (snd run) Hrun).
Defined.

(** ** Scores *)

(** A float64 of 53 digits divided by itself is 1. *)
Lemma fdiv_self (m : positive) (e : Z) :
  Zpos (digits2_pos m) = 53%Z -> fdiv (S754_finite false m e) (S754_finite false m e) = fone.
Proof.
  intro Hd. unfold fdiv, SFdiv, SFdiv_core_binary, Zdigits2. rewrite Hd.
  replace (53 + e - (53 + e))%Z with 0%Z by lia.
  replace (e - e)%Z with 0%Z by lia.
  change (Z.min (fexp prec emax 0) 0) with (-53)%Z.
  change (0 - -53)%Z with 53%Z. cbv iota.
  rewrite Z.shiftl_mul_pow2 by lia.
  assert (Hq : Z.div_eucl (Zpos m * 2 ^ 53) (Zpos m) = (2 ^ 53, 0)%Z).
  { pose proof (Z_div_mod (Zpos m * 2 ^ 53) (Zpos m) ltac:(lia)) as Hdm.
    destruct (Z.div_eucl (Zpos m * 2 ^ 53) (Zpos m)) as [q r].
    destruct Hdm as [Heq Hr].
    assert (r = 0 /\ q = 2 ^ 53)%Z as [-> ->]; [| reflexivity].
    assert (Hm : (Zpos m * (2 ^ 53 - q) = r)%Z) by lia.
    assert (Hz : (2 ^ 53 - q = 0)%Z) by nia.
    split; [| lia]. rewrite Hz in Hm. lia. }
  rewrite Hq. cbn [xorb].
  assert (Hloc : new_location (Zpos m) 0 = loc_Exact).
  { unfold new_location, new_location_even, new_location_odd.
    destruct (Z.even (Zpos m)); reflexivity. }
  rewrite Hloc. vm_compute. reflexivity.
Qed.

Lemma count_agree_self (y : list label) :
  count_if (fun tp => String.eqb (fst tp) (snd tp)) (combine y y) = length y.
Proof.
  unfold count_if. induction y as [| t y IH]; [reflexivity |].
  cbn [combine filter fst snd]. rewrite String.eqb_refl. cbn [length]. rewrite IH.
  reflexivity.
Qed.

Lemma accuracy_self (y : list label) :
  y <> [] -> (Z.of_nat (length y) < 2 ^ 53)%Z -> accuracy y y = fone.
Proof.
  intros Hne Hn. unfold accuracy. rewrite count_agree_self.
  destruct (Z.of_nat (length y)) as [| p | p] eqn:Hz; try lia.
  - destruct y; [congruence | discriminate].
  - destruct (of_int_small Hn) as (m & j & -> & Hd & _).
    apply fdiv_self. exact Hd.
Qed.

(** X16: when every prediction sequence is non-empty and equal to the true
    labels of its slice, every score of the learning curve is exactly 1.0
    (for fewer than 2^53 true labels). *)
Theorem perfect_predictions_score_one (real : list label)
    (predicts : list (list label)) (scores : list float64) :
  (Z.of_nat (length real) < 2 ^ 53)%Z ->
  learning_curve real predicts = Ok scores ->
  (forall p, In p predicts -> p <> [] /\ p = firstn (length p) real) ->
  forall v, In v scores -> v = fone.
Proof.
  intros Hn Hs Hall v Hv. apply learning_curve_ok in Hs. subst scores.
  apply in_map_iff in Hv. destruct Hv as (p & <- & Hp).
  destruct (Hall p Hp) as [Hne Hpre]. rewrite <- Hpre.
  apply accuracy_self; [exact Hne |].
  assert (length p <= length real) by (rewrite Hpre, length_firstn; lia). lia.
Qed.

Lemma perfect_predictions_score_one_witness :
  let predicts := [firstn 3 Sample.real6; Sample.real6] in
  (Z.of_nat (length Sample.real6) < 2 ^ 53)%Z
  /\ learning_curve Sample.real6 predicts = Ok [fone; fone]
  /\ forall v, In v [fone; fone] -> v = fone.
Proof.
  intro predicts.
  assert (Hn : (Z.of_nat (length Sample.real6) < 2 ^ 53)%Z) by reflexivity.
  assert (Hs : learning_curve Sample.real6 predicts = Ok [fone; fone])
    by (vm_compute; reflexivity).
  split; [exact Hn |]. split; [exact Hs |].
  apply (@perfect_predictions_score_one Sample.real6 predicts [fone; fone] Hn Hs).
  intros p [<- | [<- | []]]; split; try discriminate; reflexivity.
Defined.

(** ** The misclassified records and the matrix *)

Lemma count_mismatch (l0 l1 : label) (ps : list (label * label)) :
  l0 <> l1 ->
  (forall p, In p ps -> (fst p = l0 \/ fst p = l1) /\ (snd p = l0 \/ snd p = l1)) ->
  count_if (fun tp => negb (String.eqb (snd tp) (fst tp))) ps
  = count_if (fun tp => String.eqb (fst tp) l0 && String.eqb (snd tp) l1) ps
    + count_if (fun tp => String.eqb (fst tp) l1 && String.eqb (snd tp) l0) ps.
Proof.
  intros Hne. unfold count_if. induction ps as [| [t p] ps IH]; intro Hall; [reflexivity |].
  specialize (IH (fun q Hq => Hall q (or_intror Hq))).
  destruct (Hall (t, p) (or_introl eq_refl)) as [Ht Hp]. cbn [fst snd] in Ht, Hp.
  cbn [filter fst snd].
  destruct (String.eqb_spec p t), (String.eqb_spec t l0), (String.eqb_spec t l1),
           (String.eqb_spec p l0), (String.eqb_spec p l1);
    subst; try congruence; try (destruct Ht; congruence); try (destruct Hp; congruence);
    cbn [andb negb length]; lia.
Qed.

Lemma filter_combine_snd {A B} (f : B -> bool) (ids : list A) :
  forall ps : list B, length ids = length ps ->
  length (filter (fun r => f (snd r)) (combine ids ps)) = length (filter f ps).
Proof.
  induction ids as [| i ids IH]; intros [| p ps] Hlen; try discriminate; [reflexivity |].
  cbn [combine filter snd]. destruct (f p); cbn [length]; rewrite IH by (simpl in Hlen; lia);
    reflexivity.
Qed.

(** X17: the misclassified records listed for a dataset are as many as the
    two off-diagonal counts of the confusion matrix of the same prediction
    sequence, false positives plus false negatives. *)
Theorem missed_are_off_diagonal (Ids : list string) (y : list label)
    (predicts : list (list label)) (missed : list string) (tn fp fn tp : nat) :
  length Ids = length y ->
  missed_records Ids y predicts = Ok missed ->
  counts_of y (last predicts []) = Ok (tn, fp, fn, tp) ->
  length missed = fp + fn.
Proof.
  intros Hlen Hm Hc.
  apply missed_records_ok in Hm; [| exact Hlen]. subst missed.
  set (final := last predicts []) in *.
  destruct (counts_of_ok _ _ Hc) as [Hyf Hu].
  destruct (unique_labels y final) as [| l0 [| l1 [| z r]]] eqn:Hlab; try discriminate.
  erewrite counts_of_two in Hc by eassumption. injection Hc as <- <- <- <-.
  unfold missed_list. rewrite length_map.
  change mispredicted
    with (fun r : string * (label * label) =>
            (fun tp => negb (String.eqb (snd tp) (fst tp))) (snd r)).
  rewrite filter_combine_snd by (rewrite length_combine; lia).
  unfold count_pairs.
  apply count_mismatch; [eapply two_labels_distinct | eapply in_combine_labels]; exact Hlab.
Qed.

Lemma missed_are_off_diagonal_witness :
  let Ids := ["n1"; "n2"; "n3"; "n4"; "n5"; "n6"] in
  length Ids = length Sample.real6
  /\ missed_records Ids Sample.real6 [Sample.guess6]
     = Ok [("n5" ++ " Classified as " ++ "FAKE" ++ nl)%string]
  /\ counts_of Sample.real6 (last [Sample.guess6] []) = Ok (1, 0, 1, 4)
  /\ length [("n5" ++ " Classified as " ++ "FAKE" ++ nl)%string] = 0 + 1.
Proof.
  intro Ids.
  assert (Hm : missed_records Ids Sample.real6 [Sample.guess6]
               = Ok [("n5" ++ " Classified as " ++ "FAKE" ++ nl)%string]) by reflexivity.
  assert (Hc : counts_of Sample.real6 (last [Sample.guess6] []) = Ok (1, 0, 1, 4))
    by reflexivity.
  split; [reflexivity |]. split; [exact Hm |]. split; [exact Hc |].
  exact (@missed_are_off_diagonal Ids Sample.real6 [Sample.guess6] _ 1 0 1 4
           eq_refl Hm Hc).
Defined.

Lemma missed_body_total (y : list label) :
  forall (Ids : list string) (final : list label),
  length Ids = length y -> length final = length y ->
  exists rows, rmap (missed_body Ids y final) (seq 0 (length y)) = Ok rows.
Proof.
  induction y as [| t y IH]; intros Ids final HI HF.
  - exists []. reflexivity.
  - destruct Ids as [| id Ids]; [discriminate |].
    destruct final as [| p final]; [discriminate |].
    destruct (IH Ids final (eq_add_S _ _ HI) (eq_add_S _ _ HF)) as (rows & Hrows).
    cbn [length seq rmap]. rewrite rmap_seq_shift.
    change (rmap (fun i => missed_body (id :: Ids) (t :: y) (p :: final) (S i)))
      with (rmap (missed_body Ids y final)).
    rewrite Hrows. unfold missed_body. cbn [getitem nth_error rbind].
    destruct (negb (String.eqb p t)); cbn [rbind]; eexists; reflexivity.
Qed.

(** X18: after an evaluation that returned, for a step count [lc >= 1] on a
    dataset of fewer than 2^53 records with one id per record, the list of
    the misclassified records is computed without an index error: it holds
    the entry of every record whose last prediction differs from its
    label. *)
Theorem misses_follow_evaluation `{Library} (clf : classifier) (X : list row)
    (y : list label) (Ids : list string) (lc : Z) (w w' : world)
    (predicts : list (list label)) :
  (1 <= lc)%Z -> (Z.of_nat (length y) < 2 ^ 53)%Z ->
  length X = length y -> length Ids = length y ->
  predictAndEvaluate clf X y lc w = (Ok predicts, w') ->
  missed_records Ids y predicts
  = Ok (map (fun r => (fst r ++ " Classified as " ++ snd (snd r) ++ nl)%string)
            (filter (fun r => negb (String.eqb (snd (snd r)) (fst (snd r))))
                    (combine Ids (combine y (last predicts []))))).
Proof.
  intros Hlc Hn Hlen HI Hrun.
  destruct (slice_sizes_length (length y) Hlc) as (s & Hs & Hcount).
  pose proof (@slice_sizes_last lc (length y) s Hlc Hn Hs) as Hlast.
  unfold predictAndEvaluate, bind, lift in Hrun. rewrite Hs in Hrun.
  destruct (@evaluator_loop _ clf X y s w w' (Ok predicts) Hrun)
    as (_ & done & _ & rest & _ & Hok & _).
  destruct (Hok predicts eq_refl) as [_ Hall].
  assert (Hfinal : predicts <> [] /\ length (last predicts []) = length y).
  { destruct s as [| v0 s] using rev_ind; [simpl in Hcount; lia |].
    clear IHs. apply Forall2_app_inv_l in Hall.
    destruct Hall as (ps1 & ps2 & _ & Hx & ->).
    inversion Hx as [| v p l l' Hp Hnil]; subst. inversion Hnil; subst.
    split; [intro E; apply app_eq_nil in E; destruct E; discriminate |].
    rewrite last_last in Hlast. rewrite last_last, Hp, Hlast.
    rewrite <- Hlen, take_all. reflexivity. }
  destruct Hfinal as [Hne HF].
  destruct (missed_body_total y Ids (last predicts []) HI HF) as (rows & Hrows).
  pose proof (missed_body_rows y Ids (last predicts []) HI Hrows) as Hconcat.
  unfold missed_records.
  assert (E : rmap (missed_at Ids y predicts) (seq 0 (length y)) = Ok rows).
  { rewrite <- Hrows. generalize (seq 0 (length y)). intro l.
    induction l as [| i l IHl]; [reflexivity |]. cbn [rmap].
    rewrite IHl. f_equal. apply missed_at_body, getlast_last. exact Hne. }
  rewrite E. cbn [rbind]. rewrite Hconcat. reflexivity.
Qed.

Lemma misses_follow_evaluation_witness :
  let X := map (fun g => [g]) Sample.guess6 in
  let y := Sample.real6 in
  let Ids := ["n1"; "n2"; "n3"; "n4"; "n5"; "n6"] in
  let run := predictAndEvaluate (H := Sample.library) LinearSVC X y 1 Sample.world0 in
  (1 <= 1)%Z /\ (Z.of_nat (length y) < 2 ^ 53)%Z
  /\ length X = length y /\ length Ids = length y
  /\ run = (Ok [Sample.guess6], snd run)
  /\ missed_records Ids y [Sample.guess6]
     = Ok (map (fun r => (fst r ++ " Classified as " ++ snd (snd r) ++ nl)%string)
               (filter (fun r => negb (String.eqb (snd (snd r)) (fst (snd r))))
                       (combine Ids (combine y (last [Sample.guess6] []))))).
Proof.
  intros X y Ids run.
  assert (Hn : (Z.of_nat (length y) < 2 ^ 53)%Z) by reflexivity.
  assert (Hrun : run = (Ok [Sample.guess6], snd run)) by (vm_compute; reflexivity).
  split; [lia |]. split; [exact Hn |]. split; [reflexivity |]. split; [reflexivity |].
  split; [exact Hrun |].
  exact (@misses_follow_evaluation Sample.library LinearSVC X y Ids 1 Sample.world0
           (snd run) [Sample.guess6] ltac:(lia) Hn eq_refl eq_refl Hrun).
Defined.
